(** * Document reorganizer, restructurer and convention checkers

    A shallow embedding of the prompts.json maintenance scripts
    (reorganize_framework.py, restructure_framework.py and
    framework_self_validation.py), with the properties their
    specification states about them.

    Documents are the values [json.load] returns.  A Python [dict] is an
    association list in insertion order whose keys are pairwise distinct
    ([Dict.wf]); a Python [set] of strings is a [gset string].  Run-time
    exceptions are results of a small error monad. *)

From Stdlib Require Import ZArith QArith String Ascii List Bool Lia DecimalString.
From stdpp Require Import base gmap strings list sets.

Local Open Scope string_scope.
Set Warnings "-register-all,-clear-no-such-hyp".

(* ===================================================================== *)
(** ** JSON values as Python sees them *)
(* ===================================================================== *)

(** A float is identified by the text [float.__repr__] prints for it
    (which [json.dumps] emits); strings are sequences of code points
    below 256. *)
Inductive json : Type :=
| JNull
| JBool (b : bool)
| JInt (n : Z)
| JFloat (text : string)
| JStr (s : string)
| JArr (xs : list json)
| JObj (kvs : list (string * json)).

Abbreviation pydict := (list (string * json)).

Inductive py_error : Type :=
| KeyError (k : string)
| TypeError
| AttributeError.

Inductive result (A : Type) : Type :=
| Ok (a : A)
| Raise (e : py_error).

Arguments Ok {A} a.
Arguments Raise {A} e.

Definition bind {A B : Type} (c : result A) (k : A -> result B) : result B :=
  match c with
  | Ok a => k a
  | Raise e => Raise e
  end.

Notation "x <- c ;; k" := (bind c (fun x => k))
  (at level 100, c at next level, right associativity).

Definition succeeds {A : Type} (c : result A) : Prop := exists a, c = Ok a.

(* ===================================================================== *)
(** ** Python dictionaries *)
(* ===================================================================== *)

Module Dict.

(** [d.get(k)] on the association list: the entry of key [k]. *)
Fixpoint lookup (k : string) (d : pydict) : option json :=
  match d with
  | [] => None
  | (k', v) :: d' => if String.eqb k' k then Some v else lookup k d'
  end.

(** [k in d]. *)
Definition mem (k : string) (d : pydict) : bool :=
  match lookup k d with Some _ => true | None => false end.

(** [d[k] = v]: an existing key keeps its position, a new one goes last. *)
Fixpoint set (k : string) (v : json) (d : pydict) : pydict :=
  match d with
  | [] => [(k, v)]
  | (k', v') :: d' =>
      if String.eqb k' k then (k', v) :: d' else (k', v') :: set k v d'
  end.

Definition keys (d : pydict) : list string := map fst d.

(** [{k: v for k, v in items}], built by successive assignment. *)
Definition of_items (items : list (string * json)) : pydict :=
  fold_left (fun acc kv => set (fst kv) (snd kv) acc) items [].

(** The keys of a dictionary are pairwise distinct. *)
Definition wf (d : pydict) : Prop := NoDup (keys d).

(** The finite map a dictionary denotes: Python's [==] on dictionaries
    compares these. *)
Definition to_map (d : pydict) : gmap string json := list_to_map d.

End Dict.

(* ===================================================================== *)
(** ** The Python operations the scripts use *)
(* ===================================================================== *)

(** [sub in s] on strings. *)
Fixpoint str_contains (sub s : string) : bool :=
  String.prefix sub s ||
  match s with
  | EmptyString => false
  | String _ s' => str_contains sub s'
  end.

(** [bool(v)], as tested by [if not v]. *)
Definition py_truthy (v : json) : bool :=
  match v with
  | JNull => false
  | JBool b => b
  | JInt n => negb (Z.eqb n 0)
  | JFloat t => negb (String.eqb t "0.0" || String.eqb t "-0.0")
  | JStr s => negb (String.eqb s "")
  | JArr xs => match xs with [] => false | _ => true end
  | JObj kvs => match kvs with [] => false | _ => true end
  end.

(** [o.get(k, dflt)]: only dictionaries have [get]. *)
Definition py_get (o : json) (k : string) (dflt : json) : result json :=
  match o with
  | JObj d => Ok (match Dict.lookup k d with Some v => v | None => dflt end)
  | _ => Raise AttributeError
  end.

(** [o[k]] for a string [k]. *)
Definition py_getitem (o : json) (k : string) : result json :=
  match o with
  | JObj d => match Dict.lookup k d with
              | Some v => Ok v
              | None => Raise (KeyError k)
              end
  | _ => Raise TypeError
  end.

(** [k in o] for a string [k]: key membership in a dictionary, element
    membership in a list, substring test in a string. *)
Definition py_contains (k : string) (o : json) : result bool :=
  match o with
  | JObj d => Ok (Dict.mem k d)
  | JArr xs =>
      Ok (existsb (fun x => match x with
                            | JStr s => String.eqb s k
                            | _ => false
                            end) xs)
  | JStr s => Ok (str_contains k s)
  | _ => Raise TypeError
  end.

(** [o.keys()] and [o.items()]. *)
Definition py_keys (o : json) : result (list string) :=
  match o with
  | JObj d => Ok (Dict.keys d)
  | _ => Raise AttributeError
  end.

Definition py_items (o : json) : result pydict :=
  match o with
  | JObj d => Ok d
  | _ => Raise AttributeError
  end.

(** [len(o)]. *)
Definition py_len (o : json) : result nat :=
  match o with
  | JObj d => Ok (length d)
  | JArr xs => Ok (length xs)
  | JStr s => Ok (String.length s)
  | _ => Raise TypeError
  end.

(** [o[:n]] and [o[n:]]: lists and strings can be sliced.  (Slicing a
    dictionary raises [TypeError]; since Python 3.12, where slices hash,
    it raises [KeyError] instead.) *)
Definition py_slice_to (n : nat) (o : json) : result json :=
  match o with
  | JArr xs => Ok (JArr (firstn n xs))
  | JStr s => Ok (JStr (String.substring 0 n s))
  | _ => Raise TypeError
  end.

Definition py_slice_from (n : nat) (o : json) : result json :=
  match o with
  | JArr xs => Ok (JArr (skipn n xs))
  | JStr s => Ok (JStr (String.substring n (String.length s - n) s))
  | _ => Raise TypeError
  end.

(* ===================================================================== *)
(** ** reorganize_framework.py *)
(* ===================================================================== *)

Module Reorganize.

(** [reorganize_framework]: the reorganized document (the value the
    function returns and writes to the output file). *)
Definition reorganize_framework (original : json) : result json :=
  meta <- py_get original "meta" (JObj []) ;;
  core <- py_get original "core" (JObj []) ;;
  universal_standards <- py_get original "universal_standards" (JObj []) ;;
  behavioral_rules <- py_get original "behavioral_rules" (JObj []) ;;
  principles <- py_get original "principles" (JArr []) ;;
  web_development <- py_get original "web_development" (JObj []) ;;
  design_system <- py_get original "design_system" (JObj []) ;;
  music_audio_processing <- py_get original "music_audio_processing" (JObj []) ;;
  file_processing <- py_get original "file_processing" (JObj []) ;;
  ai_enhancement <- py_get original "ai_enhancement" (JObj []) ;;
  specialized_capabilities <- py_get original "specialized_capabilities" (JObj []) ;;
  autonomous_completion <- py_get original "autonomous_completion" (JObj []) ;;
  business_strategy <- py_get original "business_strategy" (JObj []) ;;
  communication <- py_get original "communication" (JObj []) ;;
  quality <- py_get original "quality" (JObj []) ;;
  formatting <- py_get original "formatting" (JObj []) ;;
  documentation <- py_get original "documentation" (JObj []) ;;
  validation_enhancement <- py_get original "validation_enhancement" (JObj []) ;;
  _validation <- py_get original "_validation" (JObj []) ;;
  workflow <- py_get original "workflow" (JObj []) ;;
  monitoring <- py_get original "monitoring" (JObj []) ;;
  execution <- py_get original "execution" (JObj []) ;;
  system_configurations <- py_get original "system_configurations" (JObj []) ;;
  infrastructure_preservation <- py_get original "infrastructure_preservation" (JObj []) ;;
  self_optimization <- py_get original "self_optimization" (JObj []) ;;
  cross_reference_integrity_system <-
    py_get original "cross_reference_integrity_system" (JObj []) ;;
  change_management <- py_get original "change_management" (JObj []) ;;
  framework_self_optimization <- py_get original "framework_self_optimization" (JObj []) ;;
  eof_metadata <- py_get original "eof_metadata" (JObj []) ;;
  Ok (JObj [
    ("meta", meta);
    ("core_framework", JObj [
      ("description", JStr "Essential framework components - always visible");
      ("reveal_on", JStr "immediate");
      ("complexity", JStr "medium");
      ("core", core);
      ("universal_standards", universal_standards);
      ("behavioral_rules", behavioral_rules);
      ("principles", principles) ]);
    ("development_domains", JObj [
      ("description", JStr "Domain-specific development standards and tools");
      ("reveal_on", JStr "domain_specific_project_detected");
      ("complexity", JStr "high");
      ("web_development", web_development);
      ("design_system", design_system);
      ("music_audio_processing", music_audio_processing);
      ("file_processing", file_processing) ]);
    ("ai_and_automation", JObj [
      ("description", JStr "AI enhancement, automation, and intelligent capabilities");
      ("reveal_on", JStr "ai_features_needed");
      ("complexity", JStr "high");
      ("ai_enhancement", ai_enhancement);
      ("specialized_capabilities", specialized_capabilities);
      ("autonomous_completion", autonomous_completion) ]);
    ("business_and_communication", JObj [
      ("description", JStr "Business strategy and communication standards");
      ("reveal_on", JStr "business_context_needed");
      ("complexity", JStr "medium");
      ("business_strategy", business_strategy);
      ("communication", communication) ]);
    ("quality_and_standards", JObj [
      ("description", JStr "Quality assurance, formatting, and validation standards");
      ("reveal_on", JStr "quality_validation_needed");
      ("complexity", JStr "medium");
      ("quality", quality);
      ("formatting", formatting);
      ("documentation", documentation);
      ("validation_enhancement", validation_enhancement);
      ("_validation", _validation) ]);
    ("operations_and_workflow", JObj [
      ("description", JStr "Workflow management, monitoring, and operational concerns");
      ("reveal_on", JStr "operational_management_needed");
      ("complexity", JStr "medium");
      ("workflow", workflow);
      ("monitoring", monitoring);
      ("execution", execution);
      ("system_configurations", system_configurations);
      ("infrastructure_preservation", infrastructure_preservation) ]);
    ("framework_management", JObj [
      ("description", JStr "Framework self-management, optimization, and maintenance");
      ("reveal_on", JStr "framework_maintenance_needed");
      ("complexity", JStr "high");
      ("self_optimization", self_optimization);
      ("cross_reference_integrity_system", cross_reference_integrity_system);
      ("change_management", change_management);
      ("framework_self_optimization", framework_self_optimization);
      ("eof_metadata", eof_metadata) ]) ]).

(** What [validate_reorganization] computes: the four sets, the group
    count it prints and the boolean it returns. *)
Record report : Type := {
  original_sections : gset string;
  reorganized_sections : gset string;
  missing_sections : gset string;
  extra_sections : gset string;
  top_level_groups : nat;
  preserved : bool
}.

(** The three descriptive fields the scan skips. *)
Definition descriptive_fields : list string :=
  ["description"; "reveal_on"; "complexity"].

(** The inner loop: [for section_name in group_data.keys()]. *)
Definition scan_group (acc : gset string) (section_names : list string)
  : gset string :=
  fold_left
    (fun acc section_name =>
       if existsb (String.eqb section_name) descriptive_fields
       then acc
       else {[section_name]} ∪ acc)
    section_names acc.

(** The outer loop: [for group_name, group_data in reorganized.items()]. *)
Definition scan_groups (items : pydict) : gset string :=
  fold_left
    (fun acc item =>
       let '(group_name, group_data) := item in
       if String.eqb group_name "meta" then acc
       else match group_data with
            | JObj g => scan_group acc (Dict.keys g)
            | _ => acc
            end)
    items ∅.

(** [validate_reorganization], on the two loaded documents. *)
Definition validate_reorganization (original reorganized : json)
  : result report :=
  original_keys <- py_keys original ;;
  let original_sections : gset string :=
    list_to_set original_keys ∖ {["meta"]} in
  items <- py_items reorganized ;;
  let reorganized_sections := scan_groups items in
  let missing_sections := original_sections ∖ reorganized_sections in
  let extra_sections := reorganized_sections ∖ original_sections in
  reorganized_keys <- py_keys reorganized ;;
  let groups :=
    length (List.filter (fun k => negb (String.eqb k "meta")) reorganized_keys) in
  Ok {| original_sections := original_sections;
        reorganized_sections := reorganized_sections;
        missing_sections := missing_sections;
        extra_sections := extra_sections;
        top_level_groups := groups;
        preserved :=
          if bool_decide (missing_sections ≠ ∅) then false
          else if bool_decide (extra_sections ≠ ∅) then false
          else true |}.

(** The command-line entry point: reorganize, then validate the input
    against the output. *)
Definition reorganize_and_validate (original : json) : result report :=
  reorganized <- reorganize_framework original ;;
  validate_reorganization original reorganized.

(** The member keys of the seven groups, group by group. *)
Definition schema : list (string * list string) :=
  [ ("core_framework",
      ["core"; "universal_standards"; "behavioral_rules"; "principles"]);
    ("development_domains",
      ["web_development"; "design_system"; "music_audio_processing";
       "file_processing"]);
    ("ai_and_automation",
      ["ai_enhancement"; "specialized_capabilities"; "autonomous_completion"]);
    ("business_and_communication", ["business_strategy"; "communication"]);
    ("quality_and_standards",
      ["quality"; "formatting"; "documentation"; "validation_enhancement";
       "_validation"]);
    ("operations_and_workflow",
      ["workflow"; "monitoring"; "execution"; "system_configurations";
       "infrastructure_preservation"]);
    ("framework_management",
      ["self_optimization"; "cross_reference_integrity_system";
       "change_management"; "framework_self_optimization"; "eof_metadata"]) ].

Definition schema_keys : list string := concat (map snd schema).

Definition schema_set : gset string := list_to_set schema_keys.

(** The group of the schema that lists member [k]. *)
Definition group_of (k : string) : option string :=
  fst <$> List.find (fun g => existsb (String.eqb k) (snd g)) schema.

(** The empty container a member defaults to: [[]] for "principles",
    [{}] for every other member. *)
Definition placeholder (k : string) : json :=
  if String.eqb k "principles" then JArr [] else JObj [].

(** The groups of a reorganized document (its top-level entries other
    than "meta" that are dictionaries) that have [k] as a key. *)
Definition groups_holding (k : string) (reorganized : pydict) : list string :=
  map fst
    (List.filter
       (fun item =>
          negb (String.eqb (fst item) "meta") &&
          match snd item with
          | JObj g => Dict.mem k g
          | _ => false
          end)
       reorganized).

(** *** The checker as the specification words it *)

Definition spec_original_keys (source : pydict) : gset string :=
  list_to_set (Dict.keys source) ∖ {["meta"]}.

(** The member keys of one group: its keys minus the three descriptive
    fields; a value that is no mapping is no group and has none. *)
Definition spec_member_keys (group : json) : gset string :=
  match group with
  | JObj g => list_to_set (Dict.keys g) ∖ list_to_set descriptive_fields
  | _ => ∅
  end.

Definition spec_recovered_keys (target : pydict) : gset string :=
  ⋃ (map (fun item => spec_member_keys (snd item))
         (List.filter (fun item => negb (String.eqb (fst item) "meta"))
                      target)).

(** The command-line entry point's exit status: 0 when the reorganized
    document validates, 1 when validation fails or anything raises. *)
Definition main (original : json) : nat :=
  match reorganize_and_validate original with
  | Ok r => if preserved r then 0 else 1
  | Raise _ => 1
  end.

End Reorganize.

(* ===================================================================== *)
(** ** restructure_framework.py *)
(* ===================================================================== *)

Module Restructure.

(** [{key: o[key] for key in keys if key in o}], key by key. *)
Fixpoint pick_keys (o : json) (keys : list string) (acc : pydict)
  : result pydict :=
  match keys with
  | [] => Ok acc
  | key :: rest =>
      present <- py_contains key o ;;
      if present : bool
      then (value <- py_getitem o key ;;
            pick_keys o rest (Dict.set key value acc))
      else pick_keys o rest acc
  end.

(** [{key: value for key, value in o.items() if key not in keys}]. *)
Definition drop_keys (o : json) (keys : list string) : result pydict :=
  items <- py_items o ;;
  Ok (Dict.of_items
        (List.filter (fun kv => negb (existsb (String.eqb (fst kv)) keys))
                     items)).

(** The static allow-lists. *)
Definition essential_rule_keys : list string :=
  ["approval_required"; "full_internalization"; "never_truncate_policy";
   "surgical_precision"].

Definition essential_web_keys : list string :=
  ["responsive_design"; "accessibility"; "performance"; "semantic_html";
   "css_architecture"].

Definition core_design_keys : list string :=
  ["typography"; "color_system"; "spacing"; "component_library"].

Definition essential_execution_keys : list string :=
  ["validation_gates"; "error_handling"; "rollback_mechanisms"].

(** [if not behavioral_rules or "core_rules" not in behavioral_rules]:
    the second test runs only when the first is false. *)
Definition lacks_core_rules (behavioral_rules : json) : result bool :=
  if negb (py_truthy behavioral_rules) then Ok true
  else (present <- py_contains "core_rules" behavioral_rules ;;
        Ok (negb present)).

Definition extract_essential_behavioral_rules (behavioral_rules : json)
  : result json :=
  lacking <- lacks_core_rules behavioral_rules ;;
  if lacking : bool then Ok (JObj [])
  else (core_rules <- py_getitem behavioral_rules "core_rules" ;;
        rules <- pick_keys core_rules essential_rule_keys [] ;;
        Ok (JObj rules)).

Definition extract_advanced_behavioral_rules (behavioral_rules : json)
  : result json :=
  lacking <- lacks_core_rules behavioral_rules ;;
  if lacking : bool then Ok (JObj [])
  else (core_rules <- py_getitem behavioral_rules "core_rules" ;;
        rules <- drop_keys core_rules essential_rule_keys ;;
        Ok (JObj rules)).

Definition extract_essential_principles (principles : json) : result json :=
  if py_truthy principles then py_slice_to 7 principles else Ok (JArr []).

Definition extract_advanced_principles (principles : json) : result json :=
  n <- py_len principles ;;
  if Nat.ltb 7 n then py_slice_from 7 principles else Ok (JArr []).

Definition extract_essential_web_patterns (web_dev : json) : result json :=
  if negb (py_truthy web_dev) then Ok (JObj [])
  else (patterns <- pick_keys web_dev essential_web_keys [] ;;
        Ok (JObj patterns)).

Definition extract_advanced_web_features (web_dev : json) : result json :=
  if negb (py_truthy web_dev) then Ok (JObj [])
  else (features <- drop_keys web_dev essential_web_keys ;;
        Ok (JObj features)).

Definition extract_core_design_components (design_system : json)
  : result json :=
  if negb (py_truthy design_system) then Ok (JObj [])
  else (components <- pick_keys design_system core_design_keys [] ;;
        Ok (JObj components)).

Definition extract_advanced_design_components (design_system : json)
  : result json :=
  if negb (py_truthy design_system) then Ok (JObj [])
  else (components <- drop_keys design_system core_design_keys ;;
        Ok (JObj components)).

Definition extract_essential_execution (execution : json) : result json :=
  if negb (py_truthy execution) then Ok (JObj [])
  else (patterns <- pick_keys execution essential_execution_keys [] ;;
        Ok (JObj patterns)).

Definition extract_advanced_execution (execution : json) : result json :=
  if negb (py_truthy execution) then Ok (JObj [])
  else (patterns <- drop_keys execution essential_execution_keys ;;
        Ok (JObj patterns)).

(** [original["meta"].get(k, dflt)]. *)
Definition meta_get (original : json) (k : string) (dflt : json)
  : result json :=
  meta <- py_getitem original "meta" ;;
  py_get meta k dflt.

(** [restructure_framework]: the restructured document.  The entries of
    the dictionary display are evaluated in the order they are written. *)
Definition restructure_framework (original : json) : result json :=
  consolidation_summary <- meta_get original "consolidation_summary" (JObj []) ;;
  compliance <- meta_get original "compliance" (JArr []) ;;
  role <- meta_get original "role" (JStr "") ;;
  execution_disclaimer <- meta_get original "execution_disclaimer" (JStr "") ;;
  github_integration <- meta_get original "github_integration" (JObj []) ;;
  file_policy <- py_get original "file_policy" (JObj []) ;;
  core_restrictions <- py_get original "core_restrictions" (JObj []) ;;
  behavioral_rules_1 <- py_get original "behavioral_rules" (JObj []) ;;
  essential_rules <- extract_essential_behavioral_rules behavioral_rules_1 ;;
  behavioral_rules_2 <- py_get original "behavioral_rules" (JObj []) ;;
  advanced_rules <- extract_advanced_behavioral_rules behavioral_rules_2 ;;
  principles_1 <- py_get original "principles" (JArr []) ;;
  essential_principles <- extract_essential_principles principles_1 ;;
  principles_2 <- py_get original "principles" (JArr []) ;;
  advanced_principles <- extract_advanced_principles principles_2 ;;
  universal_standards <- py_get original "universal_standards" (JObj []) ;;
  formatting_rules <- py_get original "formatting_rules" (JObj []) ;;
  error_handling <- py_get original "error_handling" (JObj []) ;;
  web_development_1 <- py_get original "web_development" (JObj []) ;;
  essential_patterns <- extract_essential_web_patterns web_development_1 ;;
  web_development_2 <- py_get original "web_development" (JObj []) ;;
  advanced_features <- extract_advanced_web_features web_development_2 ;;
  design_system_1 <- py_get original "design_system" (JObj []) ;;
  core_components <- extract_core_design_components design_system_1 ;;
  design_system_2 <- py_get original "design_system" (JObj []) ;;
  advanced_design <- extract_advanced_design_components design_system_2 ;;
  ai3_assistant_system <- py_get original "ai3_assistant_system" (JObj []) ;;
  rails_8_ecosystem <- py_get original "rails_8_ecosystem" (JObj []) ;;
  audio_visualizer_system <- py_get original "audio_visualizer_system" (JObj []) ;;
  business_strategy <- py_get original "business_strategy" (JObj []) ;;
  execution_1 <- py_get original "execution" (JObj []) ;;
  essential_execution <- extract_essential_execution execution_1 ;;
  execution_2 <- py_get original "execution" (JObj []) ;;
  advanced_execution <- extract_advanced_execution execution_2 ;;
  validation_framework <- py_get original "validation_framework" (JObj []) ;;
  change_management <- py_get original "change_management" (JObj []) ;;
  communication <- py_get original "communication" (JObj []) ;;
  communication_standards <- py_get original "communication_standards" (JObj []) ;;
  Ok (JObj [
    ("meta", JObj [
      ("essential_info", JObj [
        ("version", JStr "38.0.0");
        ("timestamp", JStr "2025-01-27T15:30:00Z");
        ("author", JStr "anon987654321");
        ("description",
          JStr "Self-optimized prompts.json v38.0.0 with cognitive load management");
        ("self_validated", JBool true);
        ("auto_applies_to", JStr "every_file_and_entire_projects") ]);
      ("framework_details", JObj [
        ("reveal_on", JStr "detailed_inspection_needed");
        ("complexity", JStr "medium");
        ("consolidation_summary", consolidation_summary);
        ("compliance", compliance) ]);
      ("integration_config", JObj [
        ("reveal_on", JStr "deployment_or_integration");
        ("complexity", JStr "low");
        ("role", role);
        ("execution_disclaimer", execution_disclaimer);
        ("github_integration", github_integration) ]);
      ("self_optimization", JObj [
        ("cognitive_load_management", JBool true);
        ("progressive_disclosure_enabled", JBool true);
        ("framework_health_checks", JBool true);
        ("self_enforcement_active", JBool true);
        ("last_self_validation", JStr "2025-01-27T15:30:00Z") ]) ]);
    ("core_framework", JObj [
      ("essential_first", JBool true);
      ("description",
        JStr "Core behavioral rules and restrictions - essential for all operations");
      ("file_policy", file_policy);
      ("core_restrictions", core_restrictions);
      ("behavioral_rules", JObj [
        ("essential_rules", JObj [
          ("reveal_on", JStr "immediate");
          ("rules", essential_rules) ]);
        ("advanced_rules", JObj [
          ("reveal_on", JStr "complex_scenarios");
          ("complexity", JStr "high");
          ("rules", advanced_rules) ]) ]) ]);
    ("standards_and_principles", JObj [
      ("description",
        JStr "Universal standards and core principles - progressive disclosure by complexity");
      ("essential_principles", JObj [
        ("reveal_on", JStr "immediate");
        ("complexity", JStr "low");
        ("principles", essential_principles) ]);
      ("advanced_principles", JObj [
        ("reveal_on", JStr "advanced_usage");
        ("complexity", JStr "medium");
        ("principles", advanced_principles) ]);
      ("universal_standards", universal_standards);
      ("formatting_rules", formatting_rules);
      ("error_handling", error_handling) ]);
    ("development_domains", JObj [
      ("description",
        JStr "Domain-specific development standards - revealed based on project type");
      ("web_development", JObj [
        ("essential_patterns", JObj [
          ("reveal_on", JStr "web_project_detected");
          ("complexity", JStr "medium");
          ("patterns", essential_patterns) ]);
        ("advanced_features", JObj [
          ("reveal_on", JStr "complex_web_features_needed");
          ("complexity", JStr "high");
          ("features", advanced_features) ]) ]);
      ("design_system", JObj [
        ("core_components", JObj [
          ("reveal_on", JStr "ui_design_needed");
          ("complexity", JStr "medium");
          ("components", core_components) ]);
        ("advanced_design", JObj [
          ("reveal_on", JStr "sophisticated_design_needed");
          ("complexity", JStr "high");
          ("components", advanced_design) ]) ]) ]);
    ("specialized_systems", JObj [
      ("description",
        JStr "Specialized systems and advanced features - revealed on demand");
      ("ai3_assistant_system", JObj [
        ("reveal_on", JStr "ai_assistance_needed");
        ("complexity", JStr "high");
        ("system", ai3_assistant_system) ]);
      ("rails_8_ecosystem", JObj [
        ("reveal_on", JStr "rails_project_detected");
        ("complexity", JStr "medium");
        ("ecosystem", rails_8_ecosystem) ]);
      ("audio_visualizer_system", JObj [
        ("reveal_on", JStr "audio_visualization_needed");
        ("complexity", JStr "high");
        ("system", audio_visualizer_system) ]);
      ("business_strategy", JObj [
        ("reveal_on", JStr "business_planning_needed");
        ("complexity", JStr "medium");
        ("strategy", business_strategy) ]) ]);
    ("operational_framework", JObj [
      ("description", JStr "Execution, validation, and operational concerns");
      ("execution", JObj [
        ("essential_execution", JObj [
          ("reveal_on", JStr "immediate");
          ("complexity", JStr "low");
          ("patterns", essential_execution) ]);
        ("advanced_execution", JObj [
          ("reveal_on", JStr "complex_operations_needed");
          ("complexity", JStr "high");
          ("patterns", advanced_execution) ]) ]);
      ("validation_framework", validation_framework);
      ("change_management", change_management);
      ("communication", communication);
      ("communication_standards", communication_standards) ]);
    ("framework_health", JObj [
      ("description", JStr "Framework self-monitoring and health checks");
      ("health_checks", JObj [
        ("cognitive_load_validation", JBool true);
        ("progressive_disclosure_validation", JBool true);
        ("dry_compliance_check", JBool true);
        ("self_enforcement_check", JBool true) ]);
      ("self_enforcement", JObj [
        ("framework_applies_to_itself", JBool true);
        ("recursive_validation", JBool true);
        ("continuous_improvement", JBool true) ]) ]) ]).

(** *** The split laws as the specification words them *)

(** A mapping restricted to the keys of an allow-list, and to the rest. *)
Definition spec_essential (allow : list string) (M : gmap string json)
  : gmap string json :=
  filter (fun kv => fst kv ∈ allow) M.

Definition spec_advanced (allow : list string) (M : gmap string json)
  : gmap string json :=
  filter (fun kv => fst kv ∉ allow) M.

(** The two parts of a split, as computed, partition the mapping [M]. *)
Definition splits (allow : list string) (essential advanced : result json)
  (M : pydict) : Prop :=
  exists e a,
    essential = Ok (JObj e) /\ advanced = Ok (JObj a)
    /\ Dict.wf e /\ Dict.wf a
    /\ Dict.to_map e = spec_essential allow (Dict.to_map M)
    /\ Dict.to_map a = spec_advanced allow (Dict.to_map M)
    /\ dom (Dict.to_map e) ## dom (Dict.to_map a)
    /\ Dict.to_map e ∪ Dict.to_map a = Dict.to_map M.

(** The entries of [behavioral_rules["core_rules"]], none when the key is
    absent; undefined when "core_rules" holds no mapping. *)
Definition spec_core_rules (behavioral_rules : pydict) : option pydict :=
  match Dict.lookup "core_rules" behavioral_rules with
  | None => Some []
  | Some (JObj M) => Some M
  | Some _ => None
  end.

(** The top-level keys [restructure_framework] reads from its source. *)
Definition read_keys : list string :=
  ["meta"; "file_policy"; "core_restrictions"; "behavioral_rules";
   "principles"; "universal_standards"; "formatting_rules"; "error_handling";
   "web_development"; "design_system"; "ai3_assistant_system";
   "rails_8_ecosystem"; "audio_visualizer_system"; "business_strategy";
   "execution"; "validation_framework"; "change_management"; "communication";
   "communication_standards"].

(** The seven top-level sections of a restructured document. *)
Definition section_names : list string :=
  ["meta"; "core_framework"; "standards_and_principles";
   "development_domains"; "specialized_systems"; "operational_framework";
   "framework_health"].

(** A looked-up value that is a mapping (a list), or is absent. *)
Definition mapping_or_absent (o : option json) : bool :=
  match o with
  | None | Some (JObj _) => true
  | Some _ => false
  end.

Definition list_or_absent (o : option json) : bool :=
  match o with
  | None | Some (JArr _) => true
  | Some _ => false
  end.

(** A source whose "meta" is a mapping and whose split slots have the
    shape the extractors expect. *)
Definition well_typed (d : pydict) : bool :=
  match Dict.lookup "meta" d with Some (JObj _) => true | _ => false end
  && match Dict.lookup "behavioral_rules" d with
     | None => true
     | Some (JObj br) => mapping_or_absent (Dict.lookup "core_rules" br)
     | Some _ => false
     end
  && list_or_absent (Dict.lookup "principles" d)
  && mapping_or_absent (Dict.lookup "web_development" d)
  && mapping_or_absent (Dict.lookup "design_system" d)
  && mapping_or_absent (Dict.lookup "execution" d).

(** The entries of [M] under the keys of [allow], in the order of
    [allow]. *)
Definition selected (allow : list string) (M : pydict) : pydict :=
  flat_map (fun k => match Dict.lookup k M with
                     | Some v => [(k, v)]
                     | None => []
                     end) allow.

(** The entries of [M] whose key is not in [allow], in the order of [M]. *)
Definition remaining (allow : list string) (M : pydict) : pydict :=
  List.filter (fun kv => negb (existsb (String.eqb (fst kv)) allow)) M.

(** The command-line entry point's exit status. *)
Definition main (original : json) : nat :=
  match restructure_framework original with
  | Ok _ => 0
  | Raise _ => 1
  end.

End Restructure.

(* ===================================================================== *)
(** ** json.dumps and str.count *)
(* ===================================================================== *)

Module Text.

Definition quote : ascii := ascii_of_nat 34.
Definition backslash : ascii := ascii_of_nat 92.

(** A name between double quotes, as it stands in the serialized text. *)
Definition quoted (name : string) : string :=
  String quote (name ++ String quote EmptyString).

Definition hex_digit (n : nat) : ascii :=
  nth n (list_ascii_of_string "0123456789abcdef") "0"%char.

(** The replacement of one character under [ensure_ascii]: the short
    escapes, the character itself from space to tilde, and a four-digit
    escape otherwise. *)
Definition escape_char (c : ascii) : string :=
  let n := nat_of_ascii c in
  let esc (x : string) := String backslash x in
  if Nat.eqb n 34 then esc (String quote EmptyString)
  else if Nat.eqb n 92 then esc (String backslash EmptyString)
  else if Nat.eqb n 10 then esc "n"
  else if Nat.eqb n 13 then esc "r"
  else if Nat.eqb n 9 then esc "t"
  else if Nat.eqb n 8 then esc "b"
  else if Nat.eqb n 12 then esc "f"
  else if Nat.leb 32 n && Nat.leb n 126 then String c EmptyString
  else esc (String "u" (String "0" (String "0"
         (String (hex_digit (n / 16)) (String (hex_digit (n mod 16))
            EmptyString))))).

Fixpoint escape (s : string) : string :=
  match s with
  | EmptyString => EmptyString
  | String c s' => escape_char c ++ escape s'
  end.

Definition encode_string (s : string) : string :=
  String quote (escape s ++ String quote EmptyString).

(** [json.dumps(v)] with the default separators. *)
Fixpoint dumps (v : json) : string :=
  match v with
  | JNull => "null"
  | JBool true => "true"
  | JBool false => "false"
  | JInt n => NilZero.string_of_int (Z.to_int n)
  | JFloat text => text
  | JStr s => encode_string s
  | JArr xs => "[" ++ String.concat ", " (map dumps xs) ++ "]"
  | JObj kvs =>
      "{" ++ String.concat ", "
               (map (fun kv => let '(k, x) := kv in
                               encode_string k ++ ": " ++ dumps x) kvs)
          ++ "}"
  end.

(** The scan of [s.count(sub)] for a non-empty [sub]: occurrences are
    counted left to right and do not overlap; [skip] characters of the
    last occurrence are still to be passed. *)
Fixpoint count_from (sub : string) (skip : nat) (s : string) : nat :=
  match s with
  | EmptyString => 0
  | String _ s' =>
      match skip with
      | S n => count_from sub n s'
      | O => if String.prefix sub s
             then S (count_from sub (String.length sub - 1) s')
             else count_from sub 0 s'
      end
  end.

(** [s.count(sub)]; the empty string occurs between all characters. *)
Definition str_count (sub s : string) : nat :=
  if String.eqb sub "" then S (String.length s) else count_from sub 0 s.

End Text.

(* ===================================================================== *)
(** ** framework_self_validation.py *)
(* ===================================================================== *)

Module SelfValidation.

Import Text.

Record violation : Type := {
  kind : string;
  location : string;
  count : nat;
  limit : nat;
  severity : string
}.

Definition decimal (n : nat) : string :=
  NilZero.string_of_uint (Nat.to_uint n).

(** [_generate_cognitive_load_suggestions]. *)
Definition generate_cognitive_load_suggestions (violations : list violation)
  : list string :=
  map (fun v =>
         if String.eqb (location v) "root"
         then "Consider grouping related top-level sections under categorical containers"
         else "Implement progressive disclosure for '" ++ location v ++ "' ("
              ++ decimal (count v) ++ " items)")
      violations.

Record cognitive_load : Type := {
  cl_compliant : bool;
  cl_violations : list violation;
  cl_suggestions : list string
}.

Definition overload (where_ : string) (n : nat) (sev : string) : violation :=
  {| kind := "cognitive_overload"; location := where_; count := n;
     limit := 9; severity := sev |}.

(** The check of one top-level entry ([for key, value in ...items()]). *)
Definition check_subsection (violations : list violation)
  (item : string * json) : list violation :=
  let '(key, value) := item in
  match value with
  | JObj sub =>
      let sub_count := length (Dict.keys sub) in
      if Nat.ltb 9 sub_count
      then violations ++ [overload key sub_count "medium"]
      else violations
  | JArr xs =>
      if Nat.ltb 9 (length xs)
      then violations ++ [overload key (length xs) "medium"]
      else violations
  | _ => violations
  end.

(** [validate_cognitive_load]. *)
Definition validate_cognitive_load (framework_data : json)
  : result cognitive_load :=
  keys <- py_keys framework_data ;;
  let top_level_count := length keys in
  let violations :=
    if Nat.ltb 9 top_level_count
    then [overload "root" top_level_count "high"]
    else [] in
  items <- py_items framework_data ;;
  let violations := fold_left check_subsection items violations in
  Ok {| cl_compliant := Nat.eqb (length violations) 0;
        cl_violations := violations;
        cl_suggestions := generate_cognitive_load_suggestions violations |}.

Record progressive_disclosure : Type := {
  pd_compliant : bool;
  pd_reveal_on : nat;
  pd_essential_first : nat;
  pd_complexity_indicators : nat;
  pd_suggestions : list string
}.

(** [validate_progressive_disclosure]. *)
Definition validate_progressive_disclosure (framework_data : json)
  : progressive_disclosure :=
  let framework_str := dumps framework_data in
  let reveal_on_count := str_count (quoted "reveal_on") framework_str in
  let essential_first_count :=
    str_count (quoted "essential_first") framework_str in
  let complexity_indicators :=
    str_count (quoted "complexity") framework_str in
  let compliant :=
    Nat.ltb 0 reveal_on_count || Nat.ltb 0 essential_first_count in
  {| pd_compliant := compliant;
     pd_reveal_on := reveal_on_count;
     pd_essential_first := essential_first_count;
     pd_complexity_indicators := complexity_indicators;
     pd_suggestions :=
       if negb compliant
       then ["Add 'reveal_on' triggers for complex sections";
             "Implement 'essential_first' information hierarchy";
             "Add complexity indicators for cognitive load management"]
       else [] |}.

Record self_enforcement : Type := {
  se_compliant : bool;
  se_indicators : list (string * bool);
  se_suggestions : list string
}.

(** [sum(indicators.values())]: the number of indicators that hold. *)
Definition sum_values (indicators : list (string * bool)) : nat :=
  list_sum (map (fun kv => if snd kv : bool then 1 else 0) indicators).

(** [validate_self_enforcement]. *)
Definition validate_self_enforcement (framework_data : json)
  : self_enforcement :=
  let framework_str := dumps framework_data in
  let indicators :=
    [ ("self_validated", str_contains (quoted "self_validated") framework_str);
      ("health_checks", str_contains "health_check" framework_str);
      ("validation_framework",
        str_contains (quoted "validation_framework") framework_str);
      ("auto_applies", str_contains (quoted "auto_applies") framework_str) ] in
  let compliant := Nat.leb 2 (sum_values indicators) in
  {| se_compliant := compliant;
     se_indicators := indicators;
     se_suggestions :=
       if negb compliant
       then ["Add framework health check mechanisms";
             "Implement self-validation routines";
             "Create automated enforcement rules"]
       else [] |}.

(** *** The checks as the specification words them *)

(** A document is overloaded when the root has more than 9 keys, or a
    top-level mapping has more than 9 keys, or a top-level list has more
    than 9 elements. *)
Definition overloaded (d : pydict) : Prop :=
  9 < length (Dict.keys d)
  \/ (exists k m, (k, JObj m) ∈ d /\ 9 < length (Dict.keys m))
  \/ (exists k xs, (k, JArr xs) ∈ d /\ 9 < length xs).

(** The literal substrings each heuristic check scans for. *)
Definition disclosure_markers : list string :=
  [quoted "reveal_on"; quoted "essential_first"; quoted "complexity"].

Definition enforcement_markers : list string :=
  [quoted "self_validated"; "health_check"; quoted "validation_framework";
   quoted "auto_applies"].

(** How many of the markers occur in the serialized document. *)
Definition markers_present (markers : list string) (framework_data : json)
  : nat :=
  length (List.filter (fun m => str_contains m (dumps framework_data)) markers).

Record dry_violation : Type := {
  pattern : string;
  occurrences : nat;
  threshold : nat;
  dry_severity : string
}.

Record dry_compliance : Type := {
  dc_compliant : bool;
  dc_patterns : list (string * nat);
  dc_violations : list dry_violation;
  dc_suggestions : list string
}.

(** One step of [for pattern, count in patterns.items()]. *)
Definition check_pattern (violations : list dry_violation)
  (item : string * nat) : list dry_violation :=
  let '(name, n) := item in
  if Nat.ltb 10 n
  then violations ++ [{| pattern := name; occurrences := n; threshold := 10;
                         dry_severity :=
                           if Nat.ltb n 20 then "medium" else "high" |}]
  else violations.

(** [validate_dry_compliance]. *)
Definition validate_dry_compliance (framework_data : json) : dry_compliance :=
  let framework_str := dumps framework_data in
  let patterns :=
    [ ("required", str_count (quoted "required") framework_str);
      ("mandatory", str_count (quoted "mandatory") framework_str);
      ("validation_required", str_count "validation_required" framework_str);
      ("error_handling", str_count "error_handling" framework_str);
      ("essential", str_count (quoted "essential") framework_str) ] in
  let violations := fold_left check_pattern patterns [] in
  {| dc_compliant := Nat.eqb (length violations) 0;
     dc_patterns := patterns;
     dc_violations := violations;
     dc_suggestions :=
       match violations with
       | [] => []
       | _ => ["Create reusable pattern libraries for common validations";
               "Abstract repeated validation logic into shared functions";
               "Consolidate similar error handling approaches"]
       end |}.

Record validation_results : Type := {
  framework_version : json;
  validation_timestamp : json;
  cognitive_load_result : cognitive_load;
  progressive_disclosure_result : progressive_disclosure;
  dry_compliance_result : dry_compliance;
  self_enforcement_result : self_enforcement;
  compliance_scores : list bool;
  score : Q;
  passing : bool;
  areas_needing_improvement : nat
}.

(** [sum(compliance_scores)]. *)
Definition sum_scores (scores : list bool) : nat :=
  length (List.filter (fun b => b) scores).

(** [run_comprehensive_validation]; the score, a quotient of two small
    integers, is kept as a rational. *)
Definition run_comprehensive_validation (framework_data : json)
  : result validation_results :=
  meta_1 <- py_get framework_data "meta" (JObj []) ;;
  version <- py_get meta_1 "version" (JStr "unknown") ;;
  meta_2 <- py_get framework_data "meta" (JObj []) ;;
  timestamp <- py_get meta_2 "timestamp" (JStr "unknown") ;;
  cognitive <- validate_cognitive_load framework_data ;;
  let disclosure := validate_progressive_disclosure framework_data in
  let dry := validate_dry_compliance framework_data in
  let enforcement := validate_self_enforcement framework_data in
  let scores :=
    [cl_compliant cognitive; pd_compliant disclosure; dc_compliant dry;
     se_compliant enforcement] in
  Ok {| framework_version := version;
        validation_timestamp := timestamp;
        cognitive_load_result := cognitive;
        progressive_disclosure_result := disclosure;
        dry_compliance_result := dry;
        self_enforcement_result := enforcement;
        compliance_scores := scores;
        score := Qmake (Z.of_nat (sum_scores scores))
                       (Pos.of_nat (length scores));
        passing := forallb (fun b => b) scores;
        areas_needing_improvement :=
          length (List.filter negb scores) |}.

(** The exit status of [main] on a loaded document: 0 when every check
    passes, 1 otherwise, also when the validation raises. *)
Definition main (framework_data : json) : nat :=
  match run_comprehensive_validation framework_data with
  | Ok results => if passing results then 0 else 1
  | Raise _ => 1
  end.

(** A key named [k] somewhere in the document: in the document itself or
    in a value nested in it. *)
Fixpoint has_key (k : string) (v : json) : bool :=
  match v with
  | JArr xs => existsb (has_key k) xs
  | JObj kvs =>
      existsb (fun kv => let '(k', x) := kv in
                         String.eqb k' k || has_key k x) kvs
  | _ => false
  end.

(** A top-level value with more than 9 entries. *)
Definition oversized (v : json) : bool :=
  match v with
  | JObj m => Nat.ltb 9 (length m)
  | JArr xs => Nat.ltb 9 (length xs)
  | _ => false
  end.

End SelfValidation.

(* ===================================================================== *)
(** ** Dictionaries: lookup, keys and the denoted map *)
(* ===================================================================== *)

Section DictFacts.

Implicit Types (d : pydict) (k : string) (v : json).

Lemma eqb_decide (a b : string) :
  String.eqb a b = bool_decide (a = b).
Proof.
  destruct (String.eqb_spec a b); symmetry;
    [by apply bool_decide_eq_true | by apply bool_decide_eq_false].
Qed.

Lemma lookup_to_map d k : Dict.to_map d !! k = Dict.lookup k d.
Proof.
  unfold Dict.to_map. induction d as [|[k' v'] d IH]; simpl.
  - apply lookup_empty.
  - destruct (String.eqb_spec k' k) as [->|Hne].
    + apply lookup_insert_eq.
    + by rewrite lookup_insert_ne.
Qed.

Lemma lookup_None_keys d k : Dict.lookup k d = None ↔ k ∉ Dict.keys d.
Proof.
  induction d as [|[k' v'] d IH]; simpl.
  - split; [intros _; apply not_elem_of_nil | done].
  - rewrite not_elem_of_cons.
    destruct (String.eqb_spec k' k) as [->|Hne]; [naive_solver|].
    rewrite IH. naive_solver.
Qed.

Lemma mem_keys d k : Dict.mem k d = true ↔ k ∈ Dict.keys d.
Proof.
  unfold Dict.mem. destruct (Dict.lookup k d) eqn:E.
  - split; [intros _|done].
    destruct (decide (k ∈ Dict.keys d)) as [|Hn]; [done|].
    apply lookup_None_keys in Hn. congruence.
  - split; [done|]. intros Hin. by apply lookup_None_keys in E.
Qed.

Lemma existsb_eqb_elem (l : list string) k :
  existsb (String.eqb k) l = true ↔ k ∈ l.
Proof.
  rewrite existsb_exists. split.
  - intros (x & Hin & ->%String.eqb_eq). by apply list_elem_of_In.
  - intros Hin. exists k. split; [by apply list_elem_of_In|].
    apply String.eqb_refl.
Qed.

Lemma lookup_set d k k' v :
  Dict.lookup k (Dict.set k' v d)
  = if String.eqb k' k then Some v else Dict.lookup k d.
Proof.
  induction d as [|[k0 v0] d IH]; simpl.
  - reflexivity.
  - destruct (String.eqb_spec k0 k') as [->|Hne]; simpl.
    + destruct (String.eqb k' k); reflexivity.
    + rewrite IH.
      destruct (String.eqb_spec k0 k) as [->|Hne']; [|reflexivity].
      destruct (String.eqb_spec k' k); congruence.
Qed.

Lemma keys_set d k v :
  Dict.keys (Dict.set k v d)
  = if Dict.mem k d then Dict.keys d else (Dict.keys d ++ [k])%list.
Proof.
  unfold Dict.mem. induction d as [|[k0 v0] d IH]; simpl.
  - reflexivity.
  - destruct (String.eqb_spec k0 k) as [->|Hne]; simpl; [reflexivity|].
    rewrite IH. destruct (Dict.lookup k d); reflexivity.
Qed.

Lemma wf_set d k v : Dict.wf d -> Dict.wf (Dict.set k v d).
Proof.
  unfold Dict.wf. intros Hd. rewrite keys_set.
  destruct (Dict.mem k d) eqn:E; [assumption|].
  apply NoDup_app. split; [assumption|]. split; [|apply NoDup_singleton].
  intros x Hx ->%list_elem_of_singleton.
  apply mem_keys in Hx. congruence.
Qed.

Lemma lookup_filter_keys (p : string -> bool) d k :
  Dict.lookup k (List.filter (fun kv => p (fst kv)) d)
  = if p k then Dict.lookup k d else None.
Proof.
  induction d as [|[k0 v0] d IH]; simpl.
  - by destruct (p k).
  - destruct (p k0) eqn:E0; simpl; rewrite IH;
      destruct (String.eqb_spec k0 k) as [<-|Hne]; try reflexivity.
    + by rewrite E0.
    + by rewrite E0.
Qed.

Lemma wf_filter (f : string * json -> bool) d :
  Dict.wf d -> Dict.wf (List.filter f d).
Proof.
  unfold Dict.wf, Dict.keys. induction d as [|[k0 v0] d IH]; simpl.
  - done.
  - intros [Hnotin Hd]%NoDup_cons. destruct (f (k0, v0)); simpl; [|auto].
    apply NoDup_cons. split; [|auto].
    intros Hin. apply Hnotin.
    apply list_elem_of_fmap in Hin as (y & -> & Hy).
    apply list_elem_of_fmap. exists y. split; [done|].
    apply list_elem_of_In. apply list_elem_of_In in Hy.
    by apply filter_In in Hy as [Hy _].
Qed.

Lemma lookup_fold_set items acc k :
  Dict.wf items ->
  Dict.lookup k
    (fold_left (fun acc kv => Dict.set (fst kv) (snd kv) acc) items acc)
  = match Dict.lookup k items with
    | Some v => Some v
    | None => Dict.lookup k acc
    end.
Proof.
  unfold Dict.wf. revert acc.
  induction items as [|[k1 v1] items IH]; intros acc Hnd; simpl.
  - reflexivity.
  - apply NoDup_cons in Hnd as [Hnotin Hnd]. rewrite IH by assumption.
    rewrite lookup_set.
    destruct (String.eqb_spec k1 k) as [<-|Hne]; [|reflexivity].
    apply lookup_None_keys in Hnotin. simpl in Hnotin. by rewrite Hnotin.
Qed.

Lemma wf_fold_set items acc :
  Dict.wf acc ->
  Dict.wf (fold_left (fun acc kv => Dict.set (fst kv) (snd kv) acc) items acc).
Proof.
  revert acc. induction items as [|kv items IH]; intros acc Hacc; simpl.
  - assumption.
  - apply IH. by apply wf_set.
Qed.

Lemma lookup_of_items items k :
  Dict.wf items -> Dict.lookup k (Dict.of_items items) = Dict.lookup k items.
Proof.
  intros Hwf. unfold Dict.of_items. rewrite lookup_fold_set by assumption.
  by destruct (Dict.lookup k items).
Qed.

Lemma wf_of_items items : Dict.wf (Dict.of_items items).
Proof. apply wf_fold_set. apply NoDup_nil_2. Qed.

End DictFacts.

(* ===================================================================== *)
(** ** The completeness checker *)
(* ===================================================================== *)

Section Checker.

Import Reorganize.

Lemma scan_group_spec (acc : gset string) (names : list string) :
  scan_group acc names
  = acc ∪ (list_to_set names ∖ list_to_set descriptive_fields).
Proof.
  unfold scan_group. revert acc.
  induction names as [|n names IH]; intros acc; simpl.
  - set_solver.
  - rewrite IH. rewrite !eqb_decide.
    repeat case_bool_decide; simpl; set_solver.
Qed.

Lemma scan_groups_from (acc : gset string) (items : pydict) :
  fold_left
    (fun acc item =>
       let '(group_name, group_data) := item in
       if String.eqb group_name "meta" then acc
       else match group_data with
            | JObj g => scan_group acc (Dict.keys g)
            | _ => acc
            end)
    items acc
  = acc ∪ spec_recovered_keys items.
Proof.
  unfold spec_recovered_keys. revert acc.
  induction items as [|[g v] items IH]; intros acc; simpl.
  - set_solver.
  - rewrite IH. destruct (String.eqb g "meta"); simpl; [done|].
    destruct v; simpl; rewrite ?scan_group_spec; set_solver.
Qed.

Lemma scan_groups_spec (items : pydict) :
  scan_groups items = spec_recovered_keys items.
Proof. unfold scan_groups. rewrite scan_groups_from. set_solver. Qed.

Lemma preserved_spec (missing extra : gset string) :
  (if bool_decide (missing ≠ ∅) then false
   else if bool_decide (extra ≠ ∅) then false else true) = false
  ↔ missing ≠ ∅ ∨ extra ≠ ∅.
Proof. repeat case_bool_decide; naive_solver. Qed.

Lemma preserved_false_iff (d out : pydict) (r : report) :
  validate_reorganization (JObj d) (JObj out) = Ok r ->
  preserved r = false <-> missing_sections r ≠ ∅ \/ extra_sections r ≠ ∅.
Proof. intros H. cbn in H. injection H as <-. apply preserved_spec. Qed.

(** C6. On every pair of documents the checker computes
    original_keys = keys(source) - {"meta"}, recovered_keys = the union,
    over the target's groups other than "meta", of the group's keys minus
    "description", "reveal_on" and "complexity", missing = original -
    recovered and extra = recovered - original, and it returns failure
    exactly when one of the two differences is non-empty. *)
Theorem validate_reorganization_refines_spec (source target : pydict) :
  exists r,
    validate_reorganization (JObj source) (JObj target) = Ok r
    /\ original_sections r = spec_original_keys source
    /\ reorganized_sections r = spec_recovered_keys target
    /\ missing_sections r
       = spec_original_keys source ∖ spec_recovered_keys target
    /\ extra_sections r
       = spec_recovered_keys target ∖ spec_original_keys source
    /\ (preserved r = false
        <-> missing_sections r ≠ ∅ \/ extra_sections r ≠ ∅).
Proof.
  eexists. split; [reflexivity|]. cbn [original_sections
    reorganized_sections missing_sections extra_sections preserved].
  rewrite scan_groups_spec. unfold spec_original_keys.
  repeat split; try apply preserved_spec.
Qed.

End Checker.

(* ===================================================================== *)
(** ** Reorganizing, then checking *)
(* ===================================================================== *)

Section RoundTrip.

Import Reorganize.

(** The reorganizer never fails on a mapping. *)
Lemma reorganize_framework_total (d : pydict) :
  succeeds (reorganize_framework (JObj d)).
Proof. eexists. reflexivity. Qed.

(** Whatever the source, the checker recovers the schema's member keys
    from the reorganizer's output. *)
Lemma reorganized_sections_schema (d out : pydict) :
  reorganize_framework (JObj d) = Ok (JObj out) ->
  scan_groups out = schema_set.
Proof.
  intros H. cbn in H. injection H as <-.
  apply (bool_decide_unpack _). vm_compute. exact I.
Qed.

Lemma keys_not_in_original (d : pydict) (k : string) :
  Dict.lookup k d = None -> k ∉ spec_original_keys d.
Proof.
  intros H%lookup_None_keys. unfold spec_original_keys.
  rewrite elem_of_difference, elem_of_list_to_set. tauto.
Qed.

Lemma reorganize_and_validate_report (d : pydict) :
  exists out r,
    reorganize_framework (JObj d) = Ok (JObj out)
    /\ validate_reorganization (JObj d) (JObj out) = Ok r
    /\ reorganize_and_validate (JObj d) = Ok r
    /\ missing_sections r = spec_original_keys d ∖ schema_set
    /\ extra_sections r = schema_set ∖ spec_original_keys d.
Proof.
  destruct (reorganize_framework (JObj d)) as [out|e] eqn:E;
    [|discriminate E].
  pose proof E as E'. cbn in E'. injection E' as E'.
  destruct out as [| | | | | |out]; try discriminate E'.
  exists out. eexists. split; [reflexivity|].
  split; [reflexivity|]. split.
  - unfold reorganize_and_validate. rewrite E. reflexivity.
  - cbn [missing_sections extra_sections].
    rewrite (reorganized_sections_schema d out E). done.
Qed.

Lemma differences_empty (A S : gset string) :
  A ∖ S = ∅ /\ S ∖ A = ∅ <-> A = S.
Proof.
  split.
  - intros [H1 H2]. apply set_eq. intros x.
    destruct (decide (x ∈ A)), (decide (x ∈ S)); set_solver.
  - intros ->. set_solver.
Qed.

Lemma schema_set_elem (k : string) : k ∈ schema_set <-> In k schema_keys.
Proof.
  unfold schema_set. rewrite elem_of_list_to_set. apply list_elem_of_In.
Qed.

(** Case analysis on a schema member, one goal per member key. *)
Ltac each_member H :=
  unfold schema_keys in H; simpl in H;
  repeat (destruct H as [<-|H]; [|]); [..|destruct H].

Lemma member_in_one_group (d out : pydict) (k : string) :
  reorganize_framework (JObj d) = Ok (JObj out) ->
  In k schema_keys ->
  exists g, group_of k = Some g /\ groups_holding k out = [g].
Proof.
  intros E Hk. cbn in E. injection E as <-.
  each_member Hk; eexists; split; reflexivity.
Qed.

Lemma placeholder_in_group (d out : pydict) (k : string) :
  reorganize_framework (JObj d) = Ok (JObj out) ->
  In k schema_keys ->
  Dict.lookup k d = None ->
  exists g grp,
    group_of k = Some g
    /\ Dict.lookup g out = Some (JObj grp)
    /\ Dict.lookup k grp = Some (placeholder k).
Proof.
  intros E Hk Hnone. cbn in E. injection E as <-.
  each_member Hk; do 2 eexists;
    (split; [reflexivity|]); (split; [reflexivity|]);
    cbn; rewrite Hnone; reflexivity.
Qed.

(** C1, as the code has it.  For every source document the reorganizer
    followed by the checker yields missing = (keys(D) - {"meta"}) - S and
    extra = S - (keys(D) - {"meta"}), where S is the fixed set of the 28
    member keys of the schema; both are empty, and the checker succeeds,
    exactly when the top-level keys of D other than "meta" are the keys
    of S, and every key of S sits in exactly one group of the output. *)
Theorem reorganize_then_validate (d : pydict) :
  exists out r,
    reorganize_framework (JObj d) = Ok (JObj out)
    /\ validate_reorganization (JObj d) (JObj out) = Ok r
    /\ missing_sections r = spec_original_keys d ∖ schema_set
    /\ extra_sections r = schema_set ∖ spec_original_keys d
    /\ (missing_sections r = ∅ /\ extra_sections r = ∅
        <-> spec_original_keys d = schema_set)
    /\ (preserved r = true <-> spec_original_keys d = schema_set)
    /\ Forall (fun k => exists g, groups_holding k out = [g]) schema_keys.
Proof.
  destruct (reorganize_and_validate_report d)
    as (out & r & Hout & Hr & _ & Hmiss & Hextra).
  exists out, r. repeat (split; [assumption|]).
  assert (Hiff : missing_sections r = ∅ /\ extra_sections r = ∅
                 <-> spec_original_keys d = schema_set).
  { rewrite Hmiss, Hextra. apply differences_empty. }
  split; [exact Hiff|]. split.
  - rewrite <- Hiff.
    pose proof (preserved_false_iff d out r Hr)
      as [Hp1 Hp2].
    destruct (preserved r) eqn:Ep.
    + split; [intros _|done].
      destruct (decide (missing_sections r = ∅)) as [Hm|Hm];
        [destruct (decide (extra_sections r = ∅)) as [He|He]|].
      * by split.
      * discriminate (Hp2 (or_intror He)).
      * discriminate (Hp2 (or_introl Hm)).
    + split; [done|]. intros [Hm He].
      destruct Hp1 as [Hy|Hy]; [reflexivity| |]; contradiction.
  - apply List.Forall_forall. intros k Hk.
    destruct (member_in_one_group d out k Hout Hk) as (g & _ & Hg).
    by exists g.
Qed.

(** C1, as stated, fails: on the document {"x": 1} the key "x" is
    reported missing and the schema member "core" is reported extra. *)
Lemma reorganize_then_validate_not_empty :
  exists r,
    reorganize_and_validate (JObj [("x", JInt 1)]) = Ok r
    /\ missing_sections r ≠ ∅ /\ extra_sections r ≠ ∅.
Proof.
  destruct (reorganize_and_validate_report [("x", JInt 1)])
    as (out & r & _ & _ & Hrun & Hmiss & Hextra).
  exists r. split; [exact Hrun|]. rewrite Hmiss, Hextra.
  split; apply (bool_decide_unpack _); vm_compute; exact I.
Qed.

(** C4, as the code has it.  When a schema-listed member key is absent
    from the source, the reorganizer succeeds and stores the empty
    container ([] for "principles", {} otherwise) under that key in the
    member's group; the checker then does report the key in its extra
    set, and returns failure. *)
Theorem absent_member_placeholder (d : pydict) (k : string) :
  In k schema_keys ->
  Dict.lookup k d = None ->
  exists out r g grp,
    reorganize_framework (JObj d) = Ok (JObj out)
    /\ group_of k = Some g
    /\ Dict.lookup g out = Some (JObj grp)
    /\ Dict.lookup k grp = Some (placeholder k)
    /\ validate_reorganization (JObj d) (JObj out) = Ok r
    /\ k ∈ extra_sections r
    /\ preserved r = false.
Proof.
  intros Hk Hnone.
  destruct (reorganize_and_validate_report d)
    as (out & r & Hout & Hr & _ & Hmiss & Hextra).
  destruct (placeholder_in_group d out k Hout Hk Hnone)
    as (g & grp & Hg & Hgrp & Hslot).
  exists out, r, g, grp. repeat (split; [assumption|]).
  assert (Hin : k ∈ extra_sections r).
  { rewrite Hextra. apply elem_of_difference. split.
    - by apply schema_set_elem.
    - by apply keys_not_in_original. }
  split; [exact Hin|].
  apply (preserved_false_iff d out r Hr).
  right. intros Hempty. rewrite Hempty in Hin.
  by apply not_elem_of_empty in Hin.
Qed.

Lemma absent_member_placeholder_witness :
  exists out r g grp,
    reorganize_framework (JObj [("meta", JObj [])]) = Ok (JObj out)
    /\ group_of "principles" = Some g
    /\ Dict.lookup g out = Some (JObj grp)
    /\ Dict.lookup "principles" grp = Some (placeholder "principles")
    /\ validate_reorganization (JObj [("meta", JObj [])]) (JObj out) = Ok r
    /\ "principles" ∈ extra_sections r
    /\ preserved r = false.
Proof.
  apply (absent_member_placeholder [("meta", JObj [])] "principles").
  - simpl. tauto.
  - reflexivity.
Defined.

(** C4, as stated, fails: "core" is absent from the empty document, and
    the checker reports it in its extra set. *)
Lemma absent_member_reported_extra :
  Dict.lookup "core" [] = None
  /\ exists r,
       reorganize_and_validate (JObj []) = Ok r
       /\ "core" ∈ extra_sections r.
Proof.
  split; [reflexivity|].
  destruct (reorganize_and_validate_report [])
    as (out & r & _ & _ & Hrun & _ & Hextra).
  exists r. split; [exact Hrun|]. rewrite Hextra.
  apply (bool_decide_unpack _). vm_compute. exact I.
Qed.

(** C7. The value under "meta" in the reorganizer's output is the value
    under "meta" in the source, unchanged. *)
Theorem meta_passthrough (d : pydict) (v : json) :
  Dict.lookup "meta" d = Some v ->
  exists out,
    reorganize_framework (JObj d) = Ok (JObj out)
    /\ Dict.lookup "meta" out = Some v.
Proof.
  intros Hmeta. eexists. split; [reflexivity|].
  cbn. rewrite Hmeta. reflexivity.
Qed.

Lemma meta_passthrough_witness :
  exists out,
    reorganize_framework
      (JObj [("core", JObj []); ("meta", JObj [("version", JStr "35.2.0")])])
    = Ok (JObj out)
    /\ Dict.lookup "meta" out = Some (JObj [("version", JStr "35.2.0")]).
Proof.
  apply (meta_passthrough
           [("core", JObj []); ("meta", JObj [("version", JStr "35.2.0")])]
           (JObj [("version", JStr "35.2.0")])).
  reflexivity.
Defined.

End RoundTrip.



(* ===================================================================== *)
(** ** The essential / advanced splits *)
(* ===================================================================== *)

Section Splits.

Import Restructure.

Implicit Types (M br : pydict) (allow : list string).

(** The comprehension over an allow-list, on a dictionary. *)
Lemma pick_keys_dict M allow acc :
  exists e,
    pick_keys (JObj M) allow acc = Ok e
    /\ (Dict.wf acc -> Dict.wf e)
    /\ forall k,
         Dict.lookup k e
         = match (if existsb (String.eqb k) allow
                  then Dict.lookup k M else None) with
           | Some v => Some v
           | None => Dict.lookup k acc
           end.
Proof.
  revert acc. induction allow as [|key rest IH]; intros acc; simpl.
  - exists acc. by repeat split.
  - unfold Dict.mem. destruct (Dict.lookup key M) as [v|] eqn:E; simpl.
    + destruct (IH (Dict.set key v acc)) as (e & He & Hwf & Hlook).
      exists e. split; [exact He|]. split.
      * intros Hacc. by apply Hwf, wf_set.
      * intros k. rewrite Hlook, lookup_set.
        rewrite (String.eqb_sym k key).
        destruct (String.eqb_spec key k) as [<-|Hne]; simpl.
        -- rewrite E. by destruct (existsb _ rest).
        -- reflexivity.
    + destruct (IH acc) as (e & He & Hwf & Hlook).
      exists e. split; [exact He|]. split; [exact Hwf|].
      intros k. rewrite Hlook. rewrite (String.eqb_sym k key).
      destruct (String.eqb_spec key k) as [<-|Hne]; simpl; [|reflexivity].
      rewrite E. by destruct (existsb _ rest).
Qed.

(** Both comprehensions on a dictionary [M]: they partition it. *)
Lemma pick_drop_partition M allow :
  Dict.wf M ->
  exists e a,
    pick_keys (JObj M) allow [] = Ok e
    /\ drop_keys (JObj M) allow = Ok a
    /\ Dict.wf e /\ Dict.wf a
    /\ Dict.to_map e = spec_essential allow (Dict.to_map M)
    /\ Dict.to_map a = spec_advanced allow (Dict.to_map M)
    /\ dom (Dict.to_map e) ## dom (Dict.to_map a)
    /\ Dict.to_map e ∪ Dict.to_map a = Dict.to_map M.
Proof.
  intros HM.
  destruct (pick_keys_dict M allow []) as (e & He & Hwfe & Hlook).
  exists e. eexists. split; [exact He|]. split; [reflexivity|].
  split; [apply Hwfe, NoDup_nil_2|]. split; [apply wf_of_items|].
  assert (Hess : Dict.to_map e = spec_essential allow (Dict.to_map M)).
  { apply map_eq. intros k. apply option_eq. intros x.
    unfold spec_essential. rewrite map_lookup_filter_Some.
    rewrite !lookup_to_map, Hlook. simpl.
    destruct (existsb (String.eqb k) allow) eqn:Ex.
    - apply existsb_eqb_elem in Ex.
      destruct (Dict.lookup k M); naive_solver.
    - split; [done|]. intros [_ Hin%existsb_eqb_elem]. congruence. }
  assert (Hadv : Dict.to_map
                   (Dict.of_items
                      (List.filter
                         (fun kv => negb (existsb (String.eqb (fst kv)) allow))
                         M))
                 = spec_advanced allow (Dict.to_map M)).
  { apply map_eq. intros k. apply option_eq. intros x.
    unfold spec_advanced. rewrite map_lookup_filter_Some.
    rewrite !lookup_to_map, lookup_of_items by by apply wf_filter.
    rewrite (lookup_filter_keys
               (fun k => negb (existsb (String.eqb k) allow))). simpl.
    destruct (existsb (String.eqb k) allow) eqn:Ex; simpl.
    - apply existsb_eqb_elem in Ex. naive_solver.
    - split; [|tauto]. intros Hx. split; [exact Hx|].
      intros Hin%existsb_eqb_elem. congruence. }
  split; [exact Hess|]. split; [exact Hadv|].
  rewrite Hess, Hadv. unfold spec_essential, spec_advanced. split.
  - apply map_disjoint_dom.
    apply (map_disjoint_filter_complement (fun kv => fst kv ∈ allow)).
  - apply (map_filter_union_complement (fun kv => fst kv ∈ allow)).
Qed.

(** What the two behavioral-rule extractors compute, in terms of the
    entries of "core_rules" alone. *)
Lemma behavioral_rules_extracts br M :
  spec_core_rules br = Some M ->
  extract_essential_behavioral_rules (JObj br)
  = (rules <- pick_keys (JObj M) essential_rule_keys [] ;; Ok (JObj rules))
  /\ extract_advanced_behavioral_rules (JObj br)
     = (rules <- drop_keys (JObj M) essential_rule_keys ;; Ok (JObj rules)).
Proof.
  unfold spec_core_rules, extract_essential_behavioral_rules,
    extract_advanced_behavioral_rules, lacks_core_rules.
  destruct (Dict.lookup "core_rules" br) as [v|] eqn:E.
  - destruct v as [| | | | | |M0]; try discriminate.
    intros [= <-].
    assert (Hbr : py_truthy (JObj br) = true).
    { destruct br; [discriminate E|reflexivity]. }
    rewrite Hbr. unfold py_contains, py_getitem, Dict.mem.
    rewrite E. split; reflexivity.
  - intros [= <-]. destruct br as [|kv br']; [split; reflexivity|].
    change (py_truthy (JObj (kv :: br'))) with true.
    unfold py_contains, Dict.mem. rewrite E. split; reflexivity.
Qed.

Lemma splits_of_partition allow M (essential advanced : result json) :
  Dict.wf M ->
  essential = (x <- pick_keys (JObj M) allow [] ;; Ok (JObj x)) ->
  advanced = (x <- drop_keys (JObj M) allow ;; Ok (JObj x)) ->
  splits allow essential advanced M.
Proof.
  intros HM -> ->.
  destruct (pick_drop_partition M allow HM) as (e & a & He & Ha & Hrest).
  exists e, a. rewrite He, Ha. by repeat split; try apply Hrest.
Qed.

(** The extractors guarded by [if not value] on a dictionary. *)
Lemma guarded_pick M allow :
  (if negb (py_truthy (JObj M)) then Ok (JObj [])
   else (x <- pick_keys (JObj M) allow [] ;; Ok (JObj x)))
  = (x <- pick_keys (JObj M) allow [] ;; Ok (JObj x)).
Proof.
  destruct M; [|reflexivity]. simpl.
  induction allow as [|k rest IH]; [reflexivity|exact IH].
Qed.

Lemma guarded_drop M allow :
  (if negb (py_truthy (JObj M)) then Ok (JObj [])
   else (x <- drop_keys (JObj M) allow ;; Ok (JObj x)))
  = (x <- drop_keys (JObj M) allow ;; Ok (JObj x)).
Proof. destruct M; reflexivity. Qed.

(** C2. For each split slot whose source value is a mapping M (the
    "core_rules" of behavioral_rules, web_development, design_system and
    execution), the essential part is M restricted to the allow-list keys,
    the advanced part is M restricted to the other keys, the two key sets
    are disjoint and the union of the two parts is M. *)
Theorem split_partition_law (M br : pydict) :
  Dict.wf M ->
  Dict.lookup "core_rules" br = Some (JObj M) ->
  splits essential_rule_keys
    (extract_essential_behavioral_rules (JObj br))
    (extract_advanced_behavioral_rules (JObj br)) M
  /\ splits essential_web_keys
       (extract_essential_web_patterns (JObj M))
       (extract_advanced_web_features (JObj M)) M
  /\ splits core_design_keys
       (extract_core_design_components (JObj M))
       (extract_advanced_design_components (JObj M)) M
  /\ splits essential_execution_keys
       (extract_essential_execution (JObj M))
       (extract_advanced_execution (JObj M)) M.
Proof.
  intros HM Hbr.
  assert (Hcore : spec_core_rules br = Some M)
    by (unfold spec_core_rules; by rewrite Hbr).
  destruct (behavioral_rules_extracts br M Hcore) as [He Ha].
  split; [by apply splits_of_partition|].
  repeat split; apply splits_of_partition; try assumption;
    first [apply guarded_pick | apply guarded_drop].
Qed.

Lemma split_partition_law_witness :
  let M := [("semantic_html", JBool true); ("typography", JStr "serif");
            ("approval_required", JBool true); ("error_handling", JNull);
            ("caching", JInt 3)] in
  let br := [("version", JInt 2); ("core_rules", JObj M)] in
  splits essential_rule_keys
    (extract_essential_behavioral_rules (JObj br))
    (extract_advanced_behavioral_rules (JObj br)) M
  /\ splits essential_web_keys
       (extract_essential_web_patterns (JObj M))
       (extract_advanced_web_features (JObj M)) M
  /\ splits core_design_keys
       (extract_core_design_components (JObj M))
       (extract_advanced_design_components (JObj M)) M
  /\ splits essential_execution_keys
       (extract_essential_execution (JObj M))
       (extract_advanced_execution (JObj M)) M.
Proof.
  intros M br. apply (split_partition_law M br).
  - apply (bool_decide_unpack _). vm_compute. exact I.
  - reflexivity.
Defined.

(** C3. For every list P of length L the essential part of the principles
    split is the first min(7, L) elements, the advanced part is the
    remaining L - min(7, L) elements, and essential ++ advanced = P. *)
Theorem principles_split_law (P : list json) :
  exists e a,
    extract_essential_principles (JArr P) = Ok (JArr e)
    /\ extract_advanced_principles (JArr P) = Ok (JArr a)
    /\ e = firstn (Nat.min 7 (length P)) P
    /\ a = skipn (Nat.min 7 (length P)) P
    /\ length e = Nat.min 7 (length P)
    /\ length a = length P - Nat.min 7 (length P)
    /\ (e ++ a)%list = P.
Proof.
  exists (firstn 7 P), (skipn 7 P). split.
  { unfold extract_essential_principles. destruct P; reflexivity. }
  split.
  { unfold extract_advanced_principles. simpl.
    destruct (Nat.ltb_spec 7 (length P)) as [Hlt|Hle]; [reflexivity|].
    by rewrite skipn_all2. }
  destruct (Nat.le_ge_cases 7 (length P)) as [Hle|Hge].
  - rewrite Nat.min_l by assumption.
    repeat split; [by rewrite length_firstn, Nat.min_l
                  |by rewrite length_skipn
                  |apply firstn_skipn].
  - rewrite Nat.min_r by assumption.
    rewrite firstn_all2, skipn_all2 by assumption.
    rewrite firstn_all, skipn_all, Nat.sub_diag, app_nil_r.
    by repeat split.
Qed.

(** C5, the code at a failing input: on a document without "meta" the
    transform stops with KeyError("meta"), the first thing it evaluates
    being original["meta"]. *)
Theorem restructure_framework_needs_meta :
  restructure_framework (JObj [("principles", JArr [JStr "clarity"])])
  = Raise (KeyError "meta").
Proof. reflexivity. Qed.

Lemma restructure_framework_no_meta (d : pydict) :
  Dict.lookup "meta" d = None ->
  restructure_framework (JObj d) = Raise (KeyError "meta").
Proof.
  intros H. unfold restructure_framework, meta_get, py_getitem.
  rewrite H. reflexivity.
Qed.

Lemma bind_ext {A B : Type} (c : result A) (k k' : A -> result B) :
  (forall a, k a = k' a) -> bind c k = bind c k'.
Proof. intros H. destruct c; simpl; [apply H|reflexivity]. Qed.

(** Restructuring reads "behavioral_rules" only through the two
    extractors. *)
Lemma restructure_framework_behavioral (d br br' : pydict) :
  extract_essential_behavioral_rules (JObj br')
  = extract_essential_behavioral_rules (JObj br) ->
  extract_advanced_behavioral_rules (JObj br')
  = extract_advanced_behavioral_rules (JObj br) ->
  restructure_framework (JObj (Dict.set "behavioral_rules" (JObj br') d))
  = restructure_framework (JObj (Dict.set "behavioral_rules" (JObj br) d)).
Proof.
  intros Hess Hadv.
  unfold restructure_framework, meta_get, py_getitem, py_get.
  rewrite !lookup_set.
  repeat match goal with
         | |- context [String.eqb "behavioral_rules" ?k] =>
             let b := eval vm_compute in (String.eqb "behavioral_rules" k) in
             change (String.eqb "behavioral_rules" k) with b
         end.
  cbv beta iota.
  repeat first
    [ rewrite Hess
    | rewrite Hadv
    | apply bind_ext; intros ?
    | progress cbn [bind] ].
  reflexivity.
Qed.

(** The checker reads its source through the top-level key names only. *)
Lemma validate_reorganization_same_keys (d d' : pydict) (target : json) :
  Dict.keys d' = Dict.keys d ->
  Reorganize.validate_reorganization (JObj d') target
  = Reorganize.validate_reorganization (JObj d) target.
Proof.
  intros Hkeys. unfold Reorganize.validate_reorganization, py_keys.
  cbn [bind]. by rewrite Hkeys.
Qed.

(** C10. The essential and advanced rule sets of a behavioral_rules
    mapping together hold exactly the entries of its "core_rules" (none
    when "core_rules" is absent); two behavioral_rules mappings with the
    same "core_rules" give the same two rule sets and the same
    restructured document, whatever their other sub-keys hold; and the
    completeness checker, which reads the source through its top-level
    key names, reports the same on both documents. *)
Theorem behavioral_rules_keep_core_rules_only (d br br' M : pydict) :
  Dict.wf M ->
  spec_core_rules br = Some M ->
  spec_core_rules br' = Some M ->
  exists e a,
    extract_essential_behavioral_rules (JObj br) = Ok (JObj e)
    /\ extract_advanced_behavioral_rules (JObj br) = Ok (JObj a)
    /\ Dict.to_map e ∪ Dict.to_map a = Dict.to_map M
    /\ extract_essential_behavioral_rules (JObj br') = Ok (JObj e)
    /\ extract_advanced_behavioral_rules (JObj br') = Ok (JObj a)
    /\ restructure_framework
         (JObj (Dict.set "behavioral_rules" (JObj br') d))
       = restructure_framework
           (JObj (Dict.set "behavioral_rules" (JObj br) d))
    /\ forall target,
         Reorganize.validate_reorganization
           (JObj (Dict.set "behavioral_rules" (JObj br') d)) target
         = Reorganize.validate_reorganization
             (JObj (Dict.set "behavioral_rules" (JObj br) d)) target.
Proof.
  intros HM Hbr Hbr'.
  destruct (behavioral_rules_extracts br M Hbr) as [He Ha].
  destruct (behavioral_rules_extracts br' M Hbr') as [He' Ha'].
  destruct (pick_drop_partition M essential_rule_keys HM)
    as (e & a & Hpick & Hdrop & _ & _ & _ & _ & _ & Hunion).
  rewrite Hpick in He, He'. rewrite Hdrop in Ha, Ha'. cbn [bind] in *.
  exists e, a. repeat (split; [assumption|]). split.
  - apply restructure_framework_behavioral; congruence.
  - intros target. apply validate_reorganization_same_keys.
    by rewrite !keys_set.
Qed.

Lemma behavioral_rules_keep_core_rules_only_witness :
  let M := [("approval_required", JBool true); ("tone", JStr "direct")] in
  let br := [("core_rules", JObj M); ("escalation", JObj [("level", JInt 2)])] in
  let br' := [("core_rules", JObj M)] in
  let d := [("meta", JObj [("role", JStr "assistant")]);
            ("behavioral_rules", JNull)] in
  exists e a,
    extract_essential_behavioral_rules (JObj br) = Ok (JObj e)
    /\ extract_advanced_behavioral_rules (JObj br) = Ok (JObj a)
    /\ Dict.to_map e ∪ Dict.to_map a = Dict.to_map M
    /\ extract_essential_behavioral_rules (JObj br') = Ok (JObj e)
    /\ extract_advanced_behavioral_rules (JObj br') = Ok (JObj a)
    /\ restructure_framework
         (JObj (Dict.set "behavioral_rules" (JObj br') d))
       = restructure_framework
           (JObj (Dict.set "behavioral_rules" (JObj br) d))
    /\ forall target,
         Reorganize.validate_reorganization
           (JObj (Dict.set "behavioral_rules" (JObj br') d)) target
         = Reorganize.validate_reorganization
             (JObj (Dict.set "behavioral_rules" (JObj br) d)) target.
Proof.
  intros M br br' d.
  apply (behavioral_rules_keep_core_rules_only d br br' M).
  - apply (bool_decide_unpack _). vm_compute. exact I.
  - reflexivity.
  - reflexivity.
Defined.

End Splits.

(* ===================================================================== *)
(** ** The structural convention checker *)
(* ===================================================================== *)

Section Conventions.

Import Text SelfValidation.

Lemma check_subsection_app (acc : list violation) (item : string * json) :
  check_subsection acc item = (acc ++ check_subsection [] item)%list.
Proof.
  destruct item as [key value]. unfold check_subsection.
  destruct value; try (by rewrite app_nil_r);
    match goal with |- context [Nat.ltb ?a ?b] => destruct (Nat.ltb a b) end;
    by rewrite ?app_nil_r.
Qed.

Lemma fold_check_subsection (items : pydict) (acc : list violation) :
  fold_left check_subsection items acc
  = (acc ++ flat_map (check_subsection []) items)%list.
Proof.
  revert acc. induction items as [|item items IH]; intros acc; simpl.
  - by rewrite app_nil_r.
  - rewrite IH, check_subsection_app. by rewrite <- app_assoc.
Qed.

Lemma check_subsection_flags (key : string) (value : json) :
  check_subsection [] (key, value) ≠ []
  <-> (exists m, value = JObj m /\ 9 < length (Dict.keys m))
     \/ (exists xs, value = JArr xs /\ 9 < length xs).
Proof.
  unfold check_subsection. destruct value as [| | | | |xs|m];
    try (split; [done|intros [(? & ? & _)|(? & ? & _)]; discriminate]).
  - destruct (Nat.ltb_spec 9 (length xs)) as [Hlt|Hle]; split.
    + intros _. right. by exists xs.
    + done.
    + done.
    + intros [(? & ? & _)|(? & [= <-] & Hlt)]; [discriminate|lia].
  - destruct (Nat.ltb_spec 9 (length (Dict.keys m))) as [Hlt|Hle]; split.
    + intros _. left. by exists m.
    + done.
    + done.
    + intros [(? & [= <-] & Hlt)|(? & ? & _)]; [lia|discriminate].
Qed.

Lemma flat_map_flags (items : pydict) :
  flat_map (check_subsection []) items ≠ []
  <-> exists key value,
       (key, value) ∈ items /\ check_subsection [] (key, value) ≠ [].
Proof.
  induction items as [|[k v] items IH]; cbn [flat_map].
  - split; [done|]. intros (? & ? & Hin & _). by apply elem_of_nil in Hin.
  - destruct (check_subsection [] (k, v)) as [|x l] eqn:E.
    + rewrite app_nil_l, IH. split.
      * intros (key & value & Hin & Hne). exists key, value.
        split; [by apply elem_of_cons; right|done].
      * intros (key & value & Hin & Hne). exists key, value.
        apply elem_of_cons in Hin as [[= -> ->]|Hin]; [congruence|done].
    + split; [|done]. intros _. exists k, v.
      split; [apply elem_of_cons; by left|]. by rewrite E.
Qed.

Lemma violations_flag_overload (d : pydict) :
  fold_left check_subsection d
    (if Nat.ltb 9 (length (Dict.keys d))
     then [overload "root" (length (Dict.keys d)) "high"] else [])
  ≠ []
  <-> overloaded d.
Proof.
  rewrite fold_check_subsection. unfold overloaded.
  destruct (Nat.ltb_spec 9 (length (Dict.keys d))) as [Hlt|Hle]; simpl.
  - split; [by left|done].
  - rewrite flat_map_flags. split.
    + intros (key & value & Hin & Hflag). right.
      apply check_subsection_flags in Hflag
        as [(m & -> & Hm)|(xs & -> & Hxs)]; [left|right]; eauto.
    + intros [Hroot|[(k & m & Hin & Hm)|(k & xs & Hin & Hxs)]]; [lia| |].
      * exists k, (JObj m). split; [done|].
        apply check_subsection_flags. left. by exists m.
      * exists k, (JArr xs). split; [done|].
        apply check_subsection_flags. right. by exists xs.
Qed.

(** C8. The cognitive-load check reports a violation exactly when the
    root has more than 9 keys, or a top-level mapping has more than 9
    keys, or a top-level list has more than 9 elements; it is compliant
    exactly when there is no such violation. *)
Theorem cognitive_load_flags_overload (d : pydict) :
  exists r,
    validate_cognitive_load (JObj d) = Ok r
    /\ (cl_violations r ≠ [] <-> overloaded d)
    /\ (cl_compliant r = true <-> cl_violations r = [])
    /\ (cl_compliant r = true <-> ¬ overloaded d).
Proof.
  eexists. split; [reflexivity|].
  cbn [cl_violations cl_compliant].
  pose proof (violations_flag_overload d) as Hflag.
  destruct (fold_left check_subsection d _) as [|v vs]; cbn [length Nat.eqb].
  - split; [|split].
    + rewrite <- Hflag. done.
    + done.
    + split; [|done]. intros _ Hover. by apply Hflag in Hover.
  - split; [|split].
    + rewrite <- Hflag. done.
    + done.
    + split; [done|]. intros Hnot. exfalso. apply Hnot. by apply Hflag.
Qed.

(** A non-empty substring is counted at least once exactly when it
    occurs. *)
Lemma count_from_positive (sub s : string) :
  sub ≠ "" ->
  Nat.ltb 0 (count_from sub 0 s) = str_contains sub s.
Proof.
  intros Hsub. induction s as [|c s IH].
  - simpl. destruct sub; [done|reflexivity].
  - cbn [count_from str_contains].
    destruct (String.prefix sub (String c s)); [reflexivity|exact IH].
Qed.

Lemma str_count_quoted_positive (name s : string) :
  Nat.ltb 0 (str_count (quoted name) s) = str_contains (quoted name) s.
Proof. unfold str_count. simpl. by apply count_from_positive. Qed.

(** C9, as the code has it.  The self-enforcement check is compliant
    exactly when at least 2 of its 4 markers occur in the serialized
    document; the progressive-disclosure check is compliant exactly when
    at least 1 of the two markers "reveal_on" and "essential_first" (in
    double quotes) occurs: its third marker, "complexity", is counted for
    the report and has no part in the verdict. *)
Theorem heuristic_checks_thresholds (doc : json) :
  (pd_compliant (validate_progressive_disclosure doc) = true
   <-> 1 <= markers_present [quoted "reveal_on"; quoted "essential_first"] doc)
  /\ (se_compliant (validate_self_enforcement doc) = true
      <-> 2 <= markers_present enforcement_markers doc)
  /\ pd_complexity_indicators (validate_progressive_disclosure doc)
     = str_count (quoted "complexity") (dumps doc).
Proof.
  split; [|split; [|reflexivity]].
  - unfold validate_progressive_disclosure, markers_present.
    cbn [pd_compliant List.filter].
    rewrite !str_count_quoted_positive.
    destruct (str_contains (quoted "reveal_on") (dumps doc)),
      (str_contains (quoted "essential_first") (dumps doc));
      simpl; split; (done || lia).
  - unfold validate_self_enforcement, markers_present, enforcement_markers,
      sum_values.
    cbn [se_compliant List.filter map snd list_sum fold_right].
    destruct (str_contains (quoted "self_validated") (dumps doc)),
      (str_contains "health_check" (dumps doc)),
      (str_contains (quoted "validation_framework") (dumps doc)),
      (str_contains (quoted "auto_applies") (dumps doc));
      simpl; split; (done || lia).
Qed.

(** C9, as stated, fails for the progressive-disclosure check: the
    document {"reveal_on": "immediate"} is compliant although only one of
    the three scanned markers occurs in its text. *)
Lemma progressive_disclosure_one_marker :
  pd_compliant
    (validate_progressive_disclosure (JObj [("reveal_on", JStr "immediate")]))
  = true
  /\ markers_present disclosure_markers
       (JObj [("reveal_on", JStr "immediate")]) = 1.
Proof. split; vm_compute; reflexivity. Qed.

End Conventions.

(* ===================================================================== *)
(** ** More on the reorganizer and its checker *)
(* ===================================================================== *)

Section ReorganizeMore.

Import Reorganize.

Ltac each_schema_key H :=
  unfold schema_keys in H; simpl in H;
  repeat (destruct H as [<-|H]; [|]); [..|destruct H].

(** X1. Every schema member present in the source is stored, with its
    value unchanged, under the same key in its group of the output. *)
Theorem reorganize_keeps_member_values (d : pydict) (k : string) (v : json) :
  In k schema_keys ->
  Dict.lookup k d = Some v ->
  exists out g grp,
    reorganize_framework (JObj d) = Ok (JObj out)
    /\ group_of k = Some g
    /\ Dict.lookup g out = Some (JObj grp)
    /\ Dict.lookup k grp = Some v.
Proof.
  intros Hk Hv. eexists. 
  each_schema_key Hk; do 2 eexists;
    (split; [reflexivity|]); (split; [reflexivity|]);
    (split; [reflexivity|]); cbn; rewrite Hv; reflexivity.
Qed.

Lemma reorganize_keeps_member_values_witness :
  exists out g grp,
    reorganize_framework
      (JObj [("workflow", JArr [JStr "plan"; JStr "ship"]); ("meta", JNull)])
    = Ok (JObj out)
    /\ group_of "workflow" = Some g
    /\ Dict.lookup g out = Some (JObj grp)
    /\ Dict.lookup "workflow" grp = Some (JArr [JStr "plan"; JStr "ship"]).
Proof.
  apply (reorganize_keeps_member_values
           [("workflow", JArr [JStr "plan"; JStr "ship"]); ("meta", JNull)]
           "workflow" (JArr [JStr "plan"; JStr "ship"])).
  - simpl. tauto.
  - reflexivity.
Defined.

Lemma lookup_only_meta (d : pydict) (k : string) :
  Dict.lookup k (List.filter (fun kv => String.eqb (fst kv) "meta") d)
  = if String.eqb k "meta" then Dict.lookup k d else None.
Proof. apply (lookup_filter_keys (fun k => String.eqb k "meta")). Qed.

(** X2. Reorganizing a reorganized document loses every section: the
    result is what reorganizing the source stripped down to its "meta"
    entry gives, a skeleton of empty placeholders. *)
Theorem reorganize_twice_keeps_meta_only (d : pydict) :
  (out <- reorganize_framework (JObj d) ;; reorganize_framework out)
  = reorganize_framework
      (JObj (List.filter (fun kv => String.eqb (fst kv) "meta") d)).
Proof.
  pose proof (lookup_only_meta d) as Hd'.
  remember (List.filter (fun kv => String.eqb (fst kv) "meta") d) as d'.
  clear Heqd'. cbn. rewrite !Hd'. cbn.
  destruct (Dict.lookup "meta" d); reflexivity.
Qed.

Lemma descriptive_not_recovered (target : pydict) (k : string) :
  In k descriptive_fields -> k ∉ spec_recovered_keys target.
Proof.
  intros Hk. unfold spec_recovered_keys.
  rewrite elem_of_union_list. intros (X & HX & HkX).
  apply list_elem_of_fmap in HX as (item & -> & _).
  unfold spec_member_keys in HkX.
  destruct (snd item) as [| | | | | |g];
    try (by apply not_elem_of_empty in HkX).
  apply elem_of_difference in HkX as [_ Hnot]. apply Hnot.
  apply elem_of_list_to_set. by apply list_elem_of_In.
Qed.

(** X3. A source section named like one of the descriptive fields
    ("description", "reveal_on", "complexity") is always reported
    missing: whatever the target, validation fails. *)
Theorem descriptive_named_section_always_missing
  (source target : pydict) (k : string) :
  In k descriptive_fields ->
  k ∈ Dict.keys source ->
  exists r,
    validate_reorganization (JObj source) (JObj target) = Ok r
    /\ k ∈ missing_sections r
    /\ preserved r = false.
Proof.
  intros Hk Hin. eexists. split; [reflexivity|].
  cbn [missing_sections preserved].
  assert (Hmiss : k ∈ (list_to_set (Dict.keys source) ∖ {["meta"]}
                       : gset string) ∖ scan_groups target).
  { rewrite scan_groups_spec.
    apply elem_of_difference. split.
    - apply elem_of_difference. split; [by apply elem_of_list_to_set|].
      intros ->%elem_of_singleton. simpl in Hk.
      destruct Hk as [Hk|[Hk|[Hk|[]]]]; discriminate Hk.
    - by apply descriptive_not_recovered. }
  split; [exact Hmiss|].
  apply preserved_spec. left. intros Hempty. rewrite Hempty in Hmiss.
  by apply not_elem_of_empty in Hmiss.
Qed.

Lemma descriptive_named_section_always_missing_witness :
  exists r,
    validate_reorganization
      (JObj [("description", JStr "about"); ("core", JObj [])])
      (JObj [("core_framework",
               JObj [("description", JStr "about"); ("core", JObj [])])])
    = Ok r
    /\ "description" ∈ missing_sections r
    /\ preserved r = false.
Proof.
  apply (descriptive_named_section_always_missing
           [("description", JStr "about"); ("core", JObj [])]
           [("core_framework",
              JObj [("description", JStr "about"); ("core", JObj [])])]
           "description").
  - simpl. tauto.
  - apply (bool_decide_unpack _). vm_compute. exact I.
Defined.

(** X4. The checker sees a target only through the set of member keys it
    recovers: two targets with the same set get the same missing and extra
    sets and the same verdict, so a member repeated in several groups goes
    unnoticed. *)
Theorem checker_blind_to_grouping (source target target' : pydict) :
  spec_recovered_keys target = spec_recovered_keys target' ->
  exists r r',
    validate_reorganization (JObj source) (JObj target) = Ok r
    /\ validate_reorganization (JObj source) (JObj target') = Ok r'
    /\ missing_sections r = missing_sections r'
    /\ extra_sections r = extra_sections r'
    /\ preserved r = preserved r'.
Proof.
  intros Hsame. do 2 eexists.
  split; [reflexivity|]. split; [reflexivity|].
  cbn [missing_sections extra_sections preserved].
  rewrite !scan_groups_spec, Hsame. by repeat split.
Qed.

Lemma checker_blind_to_grouping_witness :
  exists r r',
    validate_reorganization (JObj [("core", JInt 1)])
      (JObj [("core_framework", JObj [("core", JInt 1)])]) = Ok r
    /\ validate_reorganization (JObj [("core", JInt 1)])
         (JObj [("core_framework", JObj [("core", JInt 1)]);
                ("framework_management", JObj [("core", JInt 2)])]) = Ok r'
    /\ missing_sections r = missing_sections r'
    /\ extra_sections r = extra_sections r'
    /\ preserved r = preserved r'.
Proof.
  apply (checker_blind_to_grouping
           [("core", JInt 1)]
           [("core_framework", JObj [("core", JInt 1)])]
           [("core_framework", JObj [("core", JInt 1)]);
            ("framework_management", JObj [("core", JInt 2)])]).
  apply (bool_decide_unpack _). vm_compute. exact I.
Defined.


End ReorganizeMore.

(* ===================================================================== *)
(** ** More on the restructuring transform *)
(* ===================================================================== *)

Lemma bind_Ok_inv {A B : Type} (c : result A) (k : A -> result B) (b : B) :
  bind c k = Ok b -> exists a, c = Ok a /\ k a = Ok b.
Proof. destruct c as [a|e]; simpl; [by exists a|discriminate]. Qed.

(** A successful run of the transform, taken apart step by step: what is
    left is the shape of its output. *)
Ltac invert_restructure H :=
  unfold Restructure.restructure_framework in H;
  repeat (apply bind_Ok_inv in H as (? & _ & H));
  injection H as H.

Section RestructureMore.

Import Restructure.

Implicit Types (M br d : pydict) (allow : list string).

Lemma set_fresh d k v :
  k ∉ Dict.keys d -> Dict.set k v d = (d ++ [(k, v)])%list.
Proof.
  induction d as [|[k0 v0] d IH]; simpl; [reflexivity|].
  intros [Hne Hnot]%not_elem_of_cons.
  destruct (String.eqb_spec k0 k) as [->|_]; [done|].
  by rewrite IH.
Qed.

Lemma keys_app d d' :
  Dict.keys (d ++ d') = (Dict.keys d ++ Dict.keys d')%list.
Proof. unfold Dict.keys. apply map_app. Qed.

Lemma pick_keys_selected M allow acc :
  NoDup allow ->
  (forall k, k ∈ allow -> k ∉ Dict.keys acc) ->
  pick_keys (JObj M) allow acc = Ok (acc ++ selected allow M)%list.
Proof.
  revert acc. induction allow as [|key rest IH]; intros acc Hnd Hfresh.
  - simpl. by rewrite app_nil_r.
  - apply NoDup_cons in Hnd as [Hkey Hnd]. simpl. unfold Dict.mem.
    destruct (Dict.lookup key M) as [v|] eqn:E; simpl.
    + rewrite set_fresh by (apply Hfresh; apply elem_of_cons; by left).
      rewrite IH; [by rewrite <- app_assoc|assumption|].
      intros k Hk. rewrite keys_app. simpl.
      rewrite elem_of_app, list_elem_of_singleton.
      intros [Hin| ->]; [|done].
      revert Hin. apply Hfresh. apply elem_of_cons. by right.
    + apply IH; [assumption|].
      intros k Hk. apply Hfresh. apply elem_of_cons. by right.
Qed.

Lemma fold_set_fresh (items acc : pydict) :
  NoDup (Dict.keys acc ++ Dict.keys items) ->
  fold_left (fun acc kv => Dict.set (fst kv) (snd kv) acc) items acc
  = (acc ++ items)%list.
Proof.
  revert acc. induction items as [|[k v] items IH]; intros acc Hnd; simpl.
  - by rewrite app_nil_r.
  - assert (Hk : k ∉ Dict.keys acc).
    { apply NoDup_app in Hnd as (_ & Hdisj & _).
      intros Hin. apply (Hdisj k Hin). apply elem_of_cons. by left. }
    rewrite set_fresh by assumption. rewrite IH.
    + by rewrite <- app_assoc.
    + rewrite keys_app. simpl. by rewrite <- app_assoc.
Qed.

(** A dictionary display with distinct keys is the dictionary it lists. *)
Lemma of_items_wf (items : pydict) :
  Dict.wf items -> Dict.of_items items = items.
Proof. intros Hwf. unfold Dict.of_items. by rewrite fold_set_fresh. Qed.

Lemma allow_lists_NoDup :
  NoDup essential_rule_keys /\ NoDup essential_web_keys
  /\ NoDup core_design_keys /\ NoDup essential_execution_keys.
Proof. repeat split; apply (bool_decide_unpack _); vm_compute; exact I. Qed.

Lemma pick_selected M allow :
  NoDup allow ->
  (x <- pick_keys (JObj M) allow [] ;; Ok (JObj x))
  = Ok (JObj (selected allow M)).
Proof.
  intros Hnd. rewrite pick_keys_selected; [reflexivity|assumption|].
  intros k _. apply not_elem_of_nil.
Qed.

Lemma drop_remaining M allow :
  Dict.wf M ->
  (x <- drop_keys (JObj M) allow ;; Ok (JObj x))
  = Ok (JObj (remaining allow M)).
Proof.
  intros HM. unfold drop_keys, py_items. cbn [bind].
  rewrite of_items_wf; [reflexivity|]. by apply wf_filter.
Qed.

(** X6. The essential part of each mapping split lists the allow-list
    keys present in the source value, in the order of the allow-list (not
    of the source), each with its source value. *)
Theorem essential_parts_in_allow_list_order (M br : pydict) :
  Dict.lookup "core_rules" br = Some (JObj M) ->
  extract_essential_behavioral_rules (JObj br)
  = Ok (JObj (selected essential_rule_keys M))
  /\ extract_essential_web_patterns (JObj M)
     = Ok (JObj (selected essential_web_keys M))
  /\ extract_core_design_components (JObj M)
     = Ok (JObj (selected core_design_keys M))
  /\ extract_essential_execution (JObj M)
     = Ok (JObj (selected essential_execution_keys M)).
Proof.
  intros Hbr.
  destruct allow_lists_NoDup as (Hrule & Hweb & Hdesign & Hexec).
  assert (Hcore : spec_core_rules br = Some M)
    by (unfold spec_core_rules; by rewrite Hbr).
  destruct (behavioral_rules_extracts br M Hcore) as [-> _].
  unfold extract_essential_web_patterns, extract_core_design_components,
    extract_essential_execution.
  rewrite !guarded_pick.
  repeat split; by apply pick_selected.
Qed.

Lemma essential_parts_in_allow_list_order_witness :
  let M := [("performance", JInt 3); ("surgical_precision", JInt 2);
            ("accessibility", JInt 1); ("approval_required", JInt 0)] in
  let br := [("core_rules", JObj M)] in
  extract_essential_behavioral_rules (JObj br)
  = Ok (JObj (selected essential_rule_keys M))
  /\ extract_essential_web_patterns (JObj M)
     = Ok (JObj (selected essential_web_keys M))
  /\ extract_core_design_components (JObj M)
     = Ok (JObj (selected core_design_keys M))
  /\ extract_essential_execution (JObj M)
     = Ok (JObj (selected essential_execution_keys M)).
Proof.
  intros M br. apply (essential_parts_in_allow_list_order M br).
  reflexivity.
Defined.

(** X7. The advanced part of each mapping split is the source value with
    the allow-list keys removed: the other entries, in source order. *)
Theorem advanced_parts_in_source_order (M br : pydict) :
  Dict.wf M ->
  Dict.lookup "core_rules" br = Some (JObj M) ->
  extract_advanced_behavioral_rules (JObj br)
  = Ok (JObj (remaining essential_rule_keys M))
  /\ extract_advanced_web_features (JObj M)
     = Ok (JObj (remaining essential_web_keys M))
  /\ extract_advanced_design_components (JObj M)
     = Ok (JObj (remaining core_design_keys M))
  /\ extract_advanced_execution (JObj M)
     = Ok (JObj (remaining essential_execution_keys M)).
Proof.
  intros HM Hbr.
  assert (Hcore : spec_core_rules br = Some M)
    by (unfold spec_core_rules; by rewrite Hbr).
  destruct (behavioral_rules_extracts br M Hcore) as [_ ->].
  unfold extract_advanced_web_features, extract_advanced_design_components,
    extract_advanced_execution.
  rewrite !guarded_drop.
  repeat split; by apply drop_remaining.
Qed.

Lemma advanced_parts_in_source_order_witness :
  let M := [("performance", JInt 3); ("zeta", JInt 2);
            ("spacing", JInt 1); ("alpha", JInt 0)] in
  let br := [("core_rules", JObj M)] in
  extract_advanced_behavioral_rules (JObj br)
  = Ok (JObj (remaining essential_rule_keys M))
  /\ extract_advanced_web_features (JObj M)
     = Ok (JObj (remaining essential_web_keys M))
  /\ extract_advanced_design_components (JObj M)
     = Ok (JObj (remaining core_design_keys M))
  /\ extract_advanced_execution (JObj M)
     = Ok (JObj (remaining essential_execution_keys M)).
Proof.
  intros M br. apply (advanced_parts_in_source_order M br).
  - apply (bool_decide_unpack _). vm_compute. exact I.
  - reflexivity.
Defined.

(** X8. Which values the two principle extractors accept: the essential
    one succeeds exactly on falsy values, lists and strings; the advanced
    one exactly on lists, strings and mappings of at most 7 keys.  So a
    null or zero "principles" passes the first and stops the second. *)
Theorem principle_extractors_accept (v : json) :
  (succeeds (extract_essential_principles v)
   <-> py_truthy v = false
      \/ (exists xs, v = JArr xs) \/ (exists s, v = JStr s))
  /\ (succeeds (extract_advanced_principles v)
      <-> (exists xs, v = JArr xs) \/ (exists s, v = JStr s)
         \/ (exists m, v = JObj m /\ length m <= 7)).
Proof.
  unfold succeeds, extract_essential_principles, extract_advanced_principles.
  split.
  - destruct v as [|b|n|t|s|xs|m]; simpl.
    + split; [by left|by eexists].
    + destruct b; simpl.
      * split; [by intros [? ?]|].
        intros [?|[[? ?]|[? ?]]]; discriminate.
      * split; [by left|by eexists].
    + destruct (Z.eqb n 0); simpl.
      * split; [by left|by eexists].
      * split; [by intros [? ?]|].
        intros [?|[[? ?]|[? ?]]]; discriminate.
    + destruct (String.eqb t "0.0" || String.eqb t "-0.0"); simpl.
      * split; [by left|by eexists].
      * split; [by intros [? ?]|].
        intros [?|[[? ?]|[? ?]]]; discriminate.
    + split; [intros _; right; right; by eexists|].
      intros _. destruct (String.eqb s ""); by eexists.
    + split; [intros _; right; left; by eexists|].
      intros _. destruct xs; by eexists.
    + destruct m; simpl.
      * split; [by left|by eexists].
      * split; [by intros [? ?]|].
        intros [?|[[? ?]|[? ?]]]; discriminate.
  - destruct v as [|b|n|t|s|xs|m]; simpl;
      try (split; [by intros [? ?]|];
           intros [[? ?]|[[? ?]|(? & ? & _)]]; discriminate).
    + split; [intros _; right; left; by eexists|].
      intros _. destruct (Nat.ltb 7 (String.length s)); by eexists.
    + split; [intros _; left; by eexists|].
      intros _. destruct (Nat.ltb 7 (length xs)); by eexists.
    + destruct (Nat.ltb_spec 7 (length m)) as [Hlt|Hle]; simpl.
      * split; [by intros [? ?]|].
        intros [[? ?]|[[? ?]|(m' & [= <-] & Hm)]]; try discriminate. lia.
      * split; [|by eexists]. intros _. right. right. by exists m.
Qed.

(** X9. A top-level key the transform does not read leaves no trace:
    setting it to any value does not change the restructured document. *)
Theorem restructure_ignores_unread_keys (d : pydict) (k : string) (v : json) :
  existsb (String.eqb k) read_keys = false ->
  restructure_framework (JObj (Dict.set k v d))
  = restructure_framework (JObj d).
Proof.
  intros H. simpl in H.
  repeat (apply orb_false_elim in H as [? H]).
  unfold restructure_framework, meta_get, py_getitem, py_get.
  rewrite !lookup_set.
  repeat match goal with
         | Hx : String.eqb k _ = false |- _ => rewrite Hx; clear Hx
         end.
  reflexivity.
Qed.

Lemma restructure_ignores_unread_keys_witness :
  restructure_framework
    (JObj (Dict.set "quality" (JObj [("gate", JInt 1)])
             [("meta", JObj []); ("principles", JArr [JStr "clarity"])]))
  = restructure_framework
      (JObj [("meta", JObj []); ("principles", JArr [JStr "clarity"])]).
Proof.
  apply (restructure_ignores_unread_keys
           [("meta", JObj []); ("principles", JArr [JStr "clarity"])]
           "quality" (JObj [("gate", JInt 1)])).
  reflexivity.
Defined.

(** X10. Restructuring a restructured document gives one fixed document,
    the one obtained from {"meta": {}}: nothing of the source is left. *)
Theorem restructure_twice_is_constant (d : pydict) :
  succeeds (restructure_framework (JObj d)) ->
  (out <- restructure_framework (JObj d) ;; restructure_framework out)
  = restructure_framework (JObj [("meta", JObj [])]).
Proof.
  intros [out H]. rewrite H. cbn [bind].
  invert_restructure H. subst out. vm_compute. reflexivity.
Qed.

Lemma restructure_twice_is_constant_witness :
  (out <- restructure_framework
            (JObj [("meta", JObj [("role", JStr "assistant")]);
                   ("file_policy", JObj [("create", JBool false)])]) ;;
   restructure_framework out)
  = restructure_framework (JObj [("meta", JObj [])]).
Proof.
  apply (restructure_twice_is_constant
           [("meta", JObj [("role", JStr "assistant")]);
            ("file_policy", JObj [("create", JBool false)])]).
  eexists. vm_compute. reflexivity.
Defined.

Lemma default_mapping (o : option json) :
  mapping_or_absent o = true ->
  exists M, match o with Some v => v | None => JObj [] end = JObj M.
Proof. destruct o as [[| | | | | |M]|]; try discriminate; by eexists. Qed.

Lemma default_list (o : option json) :
  list_or_absent o = true ->
  exists P, match o with Some v => v | None => JArr [] end = JArr P.
Proof. destruct o as [[| | | | |P|]|]; try discriminate; by eexists. Qed.

Lemma mapping_extractors_total M :
  exists a b c e f g,
    extract_essential_web_patterns (JObj M) = Ok a
    /\ extract_advanced_web_features (JObj M) = Ok b
    /\ extract_core_design_components (JObj M) = Ok c
    /\ extract_advanced_design_components (JObj M) = Ok e
    /\ extract_essential_execution (JObj M) = Ok f
    /\ extract_advanced_execution (JObj M) = Ok g.
Proof.
  unfold extract_essential_web_patterns, extract_advanced_web_features,
    extract_core_design_components, extract_advanced_design_components,
    extract_essential_execution, extract_advanced_execution.
  rewrite !guarded_pick, !guarded_drop.
  destruct (pick_keys_dict M essential_web_keys []) as (a & -> & _).
  destruct (pick_keys_dict M core_design_keys []) as (c & -> & _).
  destruct (pick_keys_dict M essential_execution_keys []) as (f & -> & _).
  do 6 eexists. by repeat split.
Qed.

Lemma behavioral_extractors_total br :
  mapping_or_absent (Dict.lookup "core_rules" br) = true ->
  exists a b,
    extract_essential_behavioral_rules (JObj br) = Ok a
    /\ extract_advanced_behavioral_rules (JObj br) = Ok b.
Proof.
  intros H.
  assert (exists M, spec_core_rules br = Some M) as [M HM].
  { unfold spec_core_rules.
    destruct (Dict.lookup "core_rules" br) as [[| | | | | |M]|];
      try discriminate; by eexists. }
  destruct (behavioral_rules_extracts br M HM) as [-> ->].
  destruct (pick_keys_dict M essential_rule_keys []) as (a & -> & _).
  do 2 eexists. by split.
Qed.

Lemma principle_extractors_total (P : list json) :
  exists a b,
    extract_essential_principles (JArr P) = Ok a
    /\ extract_advanced_principles (JArr P) = Ok b.
Proof.
  unfold extract_essential_principles, extract_advanced_principles. simpl.
  destruct P, (Nat.ltb 7 _); do 2 eexists; by split.
Qed.

(** X11. On a source whose "meta" is a mapping and whose split slots
    (behavioral_rules and its core_rules, web_development, design_system,
    execution: mappings; principles: a list) have the expected shape or
    are absent, the transform succeeds, the command exits with status 0,
    and the output has exactly the seven fixed sections. *)
Theorem restructure_succeeds_on_well_typed (d : pydict) :
  well_typed d = true ->
  exists out,
    restructure_framework (JObj d) = Ok (JObj out)
    /\ Dict.keys out = section_names
    /\ main (JObj d) = 0.
Proof.
  unfold well_typed. intros H.
  repeat (apply andb_prop in H as [H ?]).
  destruct (Dict.lookup "meta" d) as [[| | | | | |m]|] eqn:Em;
    try discriminate H.
  assert (exists br,
            match Dict.lookup "behavioral_rules" d with
            | Some v => v | None => JObj [] end = JObj br
            /\ mapping_or_absent (Dict.lookup "core_rules" br) = true)
    as (br & Ebr & Hcore).
  { destruct (Dict.lookup "behavioral_rules" d) as [[| | | | | |br]|];
      try discriminate; by eexists. }
  destruct (default_list _ ltac:(eassumption)) as [P EP].
  destruct (default_mapping (Dict.lookup "web_development" d)
              ltac:(assumption)) as [Mw Ew].
  destruct (default_mapping (Dict.lookup "design_system" d)
              ltac:(assumption)) as [Md Ed].
  destruct (default_mapping (Dict.lookup "execution" d)
              ltac:(assumption)) as [Me Ee].
  destruct (behavioral_extractors_total br Hcore) as (r1 & r2 & Hr1 & Hr2).
  destruct (principle_extractors_total P) as (p1 & p2 & Hp1 & Hp2).
  destruct (mapping_extractors_total Mw)
    as (w1 & w2 & ? & ? & ? & ? & Hw1 & Hw2 & _).
  destruct (mapping_extractors_total Md)
    as (? & ? & d1 & d2 & ? & ? & _ & _ & Hd1 & Hd2 & _).
  destruct (mapping_extractors_total Me)
    as (? & ? & ? & ? & e1 & e2 & _ & _ & _ & _ & He1 & He2).
  assert (Hrun : exists out,
            restructure_framework (JObj d) = Ok (JObj out)
            /\ Dict.keys out = section_names).
  { unfold restructure_framework, meta_get, py_getitem, py_get.
    rewrite Em, Ebr, EP, Ew, Ed, Ee. cbn [bind].
    rewrite Hr1, Hr2, Hp1, Hp2, Hw1, Hw2, Hd1, Hd2, He1, He2. cbn [bind].
    eexists. split; reflexivity. }
  destruct Hrun as (out & Hout & Hkeys).
  exists out. repeat split; try assumption.
  unfold main. by rewrite Hout.
Qed.

Lemma restructure_succeeds_on_well_typed_witness :
  exists out,
    restructure_framework
      (JObj [("meta", JObj [("role", JStr "assistant")]);
             ("principles", JArr [JStr "clarity"]);
             ("behavioral_rules", JObj [("tone", JStr "direct")])])
    = Ok (JObj out)
    /\ Dict.keys out = section_names
    /\ main (JObj [("meta", JObj [("role", JStr "assistant")]);
                   ("principles", JArr [JStr "clarity"]);
                   ("behavioral_rules", JObj [("tone", JStr "direct")])]) = 0.
Proof.
  apply (restructure_succeeds_on_well_typed
           [("meta", JObj [("role", JStr "assistant")]);
            ("principles", JArr [JStr "clarity"]);
            ("behavioral_rules", JObj [("tone", JStr "direct")])]).
  reflexivity.
Defined.

End RestructureMore.

(* ===================================================================== *)
(** ** More on the convention checker *)
(* ===================================================================== *)

Section ConventionsMore.

Import Text SelfValidation.

Lemma check_subsection_sound (d : pydict) (item : string * json) :
  item ∈ d ->
  Forall (fun v => limit v = 9 /\ 9 < count v /\ location v ∈ Dict.keys d)
         (check_subsection [] item).
Proof.
  intros Hin. destruct item as [key value].
  assert (Hkey : key ∈ Dict.keys d).
  { apply list_elem_of_fmap. by exists (key, value). }
  unfold check_subsection. destruct value; try apply Forall_nil_2;
    match goal with
    | |- context [Nat.ltb 9 ?n] => destruct (Nat.ltb_spec 9 n)
    end; try apply Forall_nil_2;
    apply Forall_cons; (split; [by repeat split|apply Forall_nil_2]).
Qed.

(** X12. Every violation the cognitive-load check reports has limit 9
    and a count above it, and names "root" or a top-level key of the
    document; there is at most one per top-level entry plus one for the
    root, and one suggestion per violation. *)
Theorem cognitive_load_violations_sound (d : pydict) :
  exists r,
    validate_cognitive_load (JObj d) = Ok r
    /\ Forall (fun v => limit v = 9 /\ 9 < count v
                        /\ (location v = "root" \/ location v ∈ Dict.keys d))
              (cl_violations r)
    /\ length (cl_violations r) <= S (length d)
    /\ length (cl_suggestions r) = length (cl_violations r).
Proof.
  eexists. split; [reflexivity|].
  cbn [cl_violations cl_suggestions].
  unfold generate_cognitive_load_suggestions. rewrite length_map.
  rewrite fold_check_subsection. split; [|split; [|reflexivity]].
  - apply Forall_app. split.
    + destruct (Nat.ltb_spec 9 (length (Dict.keys d))); [|apply Forall_nil_2].
      apply Forall_cons. split; [|apply Forall_nil_2].
      repeat split; [assumption|by left].
    + apply Forall_flat_map. apply List.Forall_forall. intros item Hin.
      apply list_elem_of_In in Hin.
      eapply Forall_impl; [by apply check_subsection_sound|].
      intros v (? & ? & ?). by repeat split; [..|right].
  - rewrite length_app.
    assert (Hroot : length (if Nat.ltb 9 (length (Dict.keys d))
                            then [overload "root" (length (Dict.keys d)) "high"]
                            else []) <= 1)
      by (destruct (Nat.ltb 9 _); simpl; lia).
    assert (Hsub : length (flat_map (check_subsection []) d) <= length d).
    { clear. induction d as [|[k v] d IH]; cbn [flat_map length]; [lia|].
      rewrite length_app.
      assert (length (check_subsection [] (k, v)) <= 1).
      { unfold check_subsection. destruct v; simpl; try lia;
          destruct (Nat.ltb 9 _); simpl; lia. }
      lia. }
    lia.
Qed.

(** X13. The reorganized document, checked for cognitive load, has at
    most one violation, at "meta": it is compliant exactly when the
    source's "meta" value (an empty mapping when absent) has at most 9
    entries; the eight top-level keys and the seven groups never exceed
    the limit. *)
Theorem reorganized_cognitive_load (d : pydict) :
  exists r,
    (out <- Reorganize.reorganize_framework (JObj d) ;;
     validate_cognitive_load out) = Ok r
    /\ (cl_compliant r = true
        <-> oversized (match Dict.lookup "meta" d with
                       | Some v => v
                       | None => JObj []
                       end) = false)
    /\ Forall (fun v => location v = "meta") (cl_violations r).
Proof.
  eexists. split; [reflexivity|].
  cbn [cl_compliant cl_violations].
  destruct (Dict.lookup "meta" d) as [[| | | | |xs|m]|]; cbn;
    try (split; [split; done|constructor]).
  - destruct (length xs) as [|[|[|[|[|[|[|[|[|[|n]]]]]]]]]]; cbn;
      (split; [split; done|repeat constructor]).
  - unfold Dict.keys. rewrite length_map.
    destruct (length m) as [|[|[|[|[|[|[|[|[|[|n]]]]]]]]]]; cbn;
      (split; [split; done|repeat constructor]).
Qed.

Lemma passing_all (a b c e : bool) :
  forallb (fun x => x) [a; b; c; e] = true
  <-> a = true /\ b = true /\ c = true /\ e = true.
Proof. destruct a, b, c, e; simpl; naive_solver. Qed.

Lemma exit_zero_iff (b : bool) : (if b then 0 else 1) = 0 <-> b = true.
Proof. destruct b; split; (done || discriminate). Qed.

Lemma cognitive_load_verdict (d : pydict) :
  exists r,
    validate_cognitive_load (JObj d) = Ok r
    /\ (cl_compliant r = true <-> ¬ overloaded d).
Proof.
  eexists. split; [reflexivity|]. cbn [cl_compliant].
  rewrite <- violations_flag_overload.
  destruct (fold_left check_subsection d _); cbn [length Nat.eqb]; split.
  - intros _ H. by apply H.
  - done.
  - discriminate.
  - intros H. exfalso. by apply H.
Qed.

(** X14. The self-validation command exits with status 0 exactly when
    the document is a mapping whose "meta" is absent or a mapping and all
    four checks (cognitive load, progressive disclosure, DRY,
    self-enforcement) are compliant; a "meta" of any other type makes the
    run raise, and the status is 1. *)
Theorem self_validation_exit_status (framework_data : json) :
  main framework_data = 0
  <-> exists d,
        framework_data = JObj d
        /\ Restructure.mapping_or_absent (Dict.lookup "meta" d) = true
        /\ ¬ overloaded d
        /\ pd_compliant (validate_progressive_disclosure framework_data) = true
        /\ dc_compliant (validate_dry_compliance framework_data) = true
        /\ se_compliant (validate_self_enforcement framework_data) = true.
Proof.
  unfold main, run_comprehensive_validation.
  destruct framework_data as [| | | | | |d];
    try (split; [discriminate|intros (? & ? & _); discriminate]).
  destruct (cognitive_load_verdict d) as (r & Hr & Hc). rewrite Hr.
  unfold py_get at 1 3. cbn [bind].
  destruct (Dict.lookup "meta" d) as [[| | | | | |m]|] eqn:Em;
    cbn [py_get bind passing];
    try (split; [discriminate|intros (? & [= <-] & Hm & _);
                 rewrite Em in Hm; discriminate]);
    rewrite exit_zero_iff, passing_all, Hc; (split;
      [ intros (? & ? & ? & ?); exists d; rewrite Em; by repeat split
      | intros (? & [= <-] & _ & ? & ? & ? & ?); by repeat split ]).
Qed.

(** Induction on JSON values, through lists and mappings. *)
Lemma json_nested_ind (P : json -> Prop) :
  P JNull -> (forall b, P (JBool b)) -> (forall n, P (JInt n)) ->
  (forall t, P (JFloat t)) -> (forall s, P (JStr s)) ->
  (forall xs, Forall P xs -> P (JArr xs)) ->
  (forall kvs, Forall (fun kv => P (snd kv)) kvs -> P (JObj kvs)) ->
  forall v, P v.
Proof.
  intros Hnull Hbool Hint Hfloat Hstr Harr Hobj.
  fix IH 1. intros [|b|n|t|s|xs|kvs];
    [exact Hnull|apply Hbool|apply Hint|apply Hfloat|apply Hstr| |].
  - apply Harr.
    exact ((fix go (l : list json) : Forall P l :=
              match l with
              | [] => List.Forall_nil P
              | x :: l' => @List.Forall_cons _ P x l' (IH x) (go l')
              end) xs).
  - apply Hobj.
    exact ((fix go (l : list (string * json))
              : Forall (fun kv => P (snd kv)) l :=
              match l with
              | [] => List.Forall_nil _
              | kv :: l' =>
                  @List.Forall_cons _ (fun kv => P (snd kv)) kv l'
                    (IH (snd kv)) (go l')
              end) kvs).
Qed.

Lemma prefix_app (a s t : string) :
  String.prefix a s = true -> String.prefix a (s ++ t) = true.
Proof.
  revert s. induction a as [|c a IH]; intros s H.
  - destruct (s ++ t); reflexivity.
  - destruct s as [|c' s]; [discriminate H|]. simpl in *.
    destruct (ascii_dec c c'); [by apply IH|discriminate H].
Qed.

Lemma str_contains_app_l (sub s t : string) :
  str_contains sub s = true -> str_contains sub (s ++ t) = true.
Proof.
  induction s as [|c s IH]; intros H.
  - change (String.prefix sub "" || false = true) in H.
    rewrite orb_false_r in H. destruct sub; [|discriminate H].
    change ("" ++ t) with t. destruct t; reflexivity.
  - change (String.prefix sub (String c s) || str_contains sub s = true) in H.
    change (String.prefix sub (String c (s ++ t))
            || str_contains sub (s ++ t) = true).
    apply orb_prop in H as [H|H].
    + pose proof (prefix_app sub (String c s) t H) as Hp.
      change (String.prefix sub (String c (s ++ t)) = true) in Hp.
      by rewrite Hp.
    + rewrite (IH H). apply orb_true_r.
Qed.

Lemma str_contains_app_r (sub s t : string) :
  str_contains sub t = true -> str_contains sub (s ++ t) = true.
Proof.
  intros H. induction s as [|c s IH].
  - exact H.
  - change (String.prefix sub (String c (s ++ t))
            || str_contains sub (s ++ t) = true).
    rewrite IH. apply orb_true_r.
Qed.

Lemma str_contains_concat (sub sep x : string) (l : list string) :
  In x l -> str_contains sub x = true ->
  str_contains sub (String.concat sep l) = true.
Proof.
  intros Hin Hx. induction l as [|y l IH]; [destruct Hin|].
  destruct l as [|z l].
  - destruct Hin as [->|[]]. exact Hx.
  - change (String.concat sep (y :: z :: l))
      with (y ++ sep ++ String.concat sep (z :: l)).
    destruct Hin as [->|Hin].
    + by apply str_contains_app_l.
    + apply str_contains_app_r, str_contains_app_r. by apply IH.
Qed.

Lemma dumps_arr (xs : list json) :
  dumps (JArr xs) = "[" ++ String.concat ", " (map dumps xs) ++ "]".
Proof. reflexivity. Qed.

Lemma dumps_obj (kvs : pydict) :
  dumps (JObj kvs)
  = "{" ++ String.concat ", "
             (map (fun kv => let '(k, x) := kv in
                             encode_string k ++ ": " ++ dumps x) kvs)
        ++ "}".
Proof. reflexivity. Qed.

Lemma has_key_arr (k : string) (xs : list json) :
  has_key k (JArr xs) = existsb (has_key k) xs.
Proof. reflexivity. Qed.

Lemma has_key_obj (k : string) (kvs : pydict) :
  has_key k (JObj kvs)
  = existsb (fun kv => let '(k', x) := kv in
                       String.eqb k' k || has_key k x) kvs.
Proof. reflexivity. Qed.

(** A key of the document, at any depth, stands in the serialized text:
    so does every piece of text that its encoding contains. *)
Lemma key_in_text (sub k : string) (v : json) :
  str_contains sub (encode_string k) = true ->
  has_key k v = true ->
  str_contains sub (dumps v) = true.
Proof.
  intros Hsub. induction v as [| | | | |xs IH|kvs IH] using json_nested_ind;
    try discriminate.
  - rewrite has_key_arr, dumps_arr. intros (x & Hin & Hx)%existsb_exists.
    apply str_contains_app_r, str_contains_app_l.
    apply (str_contains_concat _ _ (dumps x)); [by apply in_map|].
    rewrite List.Forall_forall in IH. by apply IH.
  - rewrite has_key_obj, dumps_obj.
    intros ([k' x] & Hin & Hx)%existsb_exists.
    apply str_contains_app_r, str_contains_app_l.
    apply (str_contains_concat _ _ (encode_string k' ++ ": " ++ dumps x)).
    { apply (in_map (fun kv => let '(k, x) := kv in
                               encode_string k ++ ": " ++ dumps x)
               _ _ Hin). }
    apply orb_prop in Hx as [->%String.eqb_eq|Hx].
    + by apply str_contains_app_l.
    + apply str_contains_app_r, str_contains_app_r.
      rewrite List.Forall_forall in IH. by apply (IH (k', x)).
Qed.

Lemma disclosure_compliant_of_key (doc : json) :
  has_key "reveal_on" doc || has_key "essential_first" doc = true ->
  pd_compliant (validate_progressive_disclosure doc) = true.
Proof.
  intros H. unfold validate_progressive_disclosure. cbn [pd_compliant].
  rewrite !str_count_quoted_positive.
  apply orb_prop in H as [H|H].
  - rewrite (key_in_text (quoted "reveal_on") "reveal_on" doc);
      [reflexivity|reflexivity|exact H].
  - rewrite (key_in_text (quoted "essential_first") "essential_first" doc);
      [apply orb_true_r|reflexivity|exact H].
Qed.

(** X15. A document that has "reveal_on" or "essential_first" as a key
    anywhere, at any depth of nesting, passes the progressive-disclosure
    check. *)
Theorem disclosure_key_anywhere_is_compliant (doc : json) :
  has_key "reveal_on" doc || has_key "essential_first" doc = true ->
  pd_compliant (validate_progressive_disclosure doc) = true.
Proof. apply disclosure_compliant_of_key. Qed.

Lemma disclosure_key_anywhere_is_compliant_witness :
  pd_compliant
    (validate_progressive_disclosure
       (JObj [("groups",
               JArr [JObj [("name", JStr "core");
                           ("essential_first", JBool true)]])]))
  = true.
Proof.
  apply (disclosure_key_anywhere_is_compliant
           (JObj [("groups",
                   JArr [JObj [("name", JStr "core");
                               ("essential_first", JBool true)]])])).
  reflexivity.
Defined.

Lemma enforcement_compliant_of_keys (doc : json) :
  2 <= length (List.filter (fun k => has_key k doc)
                 ["self_validated"; "health_check"; "validation_framework";
                  "auto_applies"]) ->
  se_compliant (validate_self_enforcement doc) = true.
Proof.
  intros H. unfold validate_self_enforcement, sum_values.
  cbn [se_compliant map snd list_sum fold_right].
  cbn [List.filter] in H.
  assert (H1 : has_key "self_validated" doc = true ->
               str_contains (quoted "self_validated") (dumps doc) = true)
    by (by apply key_in_text).
  assert (H2 : has_key "health_check" doc = true ->
               str_contains "health_check" (dumps doc) = true)
    by (by apply key_in_text).
  assert (H3 : has_key "validation_framework" doc = true ->
               str_contains (quoted "validation_framework") (dumps doc) = true)
    by (by apply key_in_text).
  assert (H4 : has_key "auto_applies" doc = true ->
               str_contains (quoted "auto_applies") (dumps doc) = true)
    by (by apply key_in_text).
  destruct (has_key "self_validated" doc);
    [rewrite H1 by reflexivity|clear H1];
    (destruct (has_key "health_check" doc);
       [rewrite H2 by reflexivity|clear H2]);
    (destruct (has_key "validation_framework" doc);
       [rewrite H3 by reflexivity|clear H3]);
    (destruct (has_key "auto_applies" doc);
       [rewrite H4 by reflexivity|clear H4]);
    cbn [length] in H; try lia;
    repeat match goal with
           | |- context [str_contains ?a ?b] => destruct (str_contains a b)
           end; reflexivity.
Qed.

(** X16. A document that has, at any depth, at least two of the keys
    "self_validated", "health_check", "validation_framework" and
    "auto_applies" passes the self-enforcement check. *)
Theorem enforcement_keys_anywhere_are_compliant (doc : json) :
  2 <= length (List.filter (fun k => has_key k doc)
                 ["self_validated"; "health_check"; "validation_framework";
                  "auto_applies"]) ->
  se_compliant (validate_self_enforcement doc) = true.
Proof. apply enforcement_compliant_of_keys. Qed.

Lemma enforcement_keys_anywhere_are_compliant_witness :
  se_compliant
    (validate_self_enforcement
       (JObj [("meta", JObj [("self_validated", JBool true)]);
              ("validation_framework", JObj [])]))
  = true.
Proof.
  apply (enforcement_keys_anywhere_are_compliant
           (JObj [("meta", JObj [("self_validated", JBool true)]);
                  ("validation_framework", JObj [])])).
  simpl. lia.
Defined.

Lemma has_key_here (k : string) (x : json) (kvs : pydict) :
  In (k, x) kvs -> has_key k (JObj kvs) = true.
Proof.
  intros Hin. rewrite has_key_obj. apply existsb_exists.
  exists (k, x). split; [exact Hin|]. by rewrite String.eqb_refl.
Qed.

Lemma has_key_deeper (k k' : string) (x : json) (kvs : pydict) :
  In (k', x) kvs -> has_key k x = true -> has_key k (JObj kvs) = true.
Proof.
  intros Hin Hx. rewrite has_key_obj. apply existsb_exists.
  exists (k', x). split; [exact Hin|]. rewrite Hx. apply orb_true_r.
Qed.

(** The entry of a display, found by its key. *)
Ltac find_entry := repeat first [left; reflexivity | right].

(** X17. Whenever the restructuring transform succeeds, its output
    passes the cognitive-load check without a violation, the
    progressive-disclosure check and the self-enforcement check. *)
Theorem restructured_passes_own_checks (d : pydict) :
  succeeds (Restructure.restructure_framework (JObj d)) ->
  exists out r,
    Restructure.restructure_framework (JObj d) = Ok out
    /\ validate_cognitive_load out = Ok r
    /\ cl_violations r = []
    /\ cl_compliant r = true
    /\ pd_compliant (validate_progressive_disclosure out) = true
    /\ se_compliant (validate_self_enforcement out) = true.
Proof.
  intros [out H]. exists out. pose proof H as Hout.
  invert_restructure H. subst out.
  eexists. split; [exact Hout|]. split; [reflexivity|].
  split; [reflexivity|]. split; [reflexivity|]. split.
  - apply disclosure_compliant_of_key. apply orb_true_iff. right.
    eapply (has_key_deeper _ "core_framework"); [find_entry|].
    eapply has_key_here. find_entry.
  - apply enforcement_compliant_of_keys.
    cbn [List.filter].
    assert (Hsv : has_key "self_validated"
                    (JObj [("self_validated", JBool true)]) = true)
      by reflexivity.
    match goal with
    | |- context [has_key "self_validated" ?o] =>
        assert (H1 : has_key "self_validated" o = true)
    end.
    { eapply (has_key_deeper _ "meta"); [find_entry|].
      eapply (has_key_deeper _ "essential_info"); [find_entry|].
      eapply has_key_here. find_entry. }
    match goal with
    | |- context [has_key "validation_framework" ?o] =>
        assert (H2 : has_key "validation_framework" o = true)
    end.
    { eapply (has_key_deeper _ "operational_framework"); [find_entry|].
      eapply has_key_here. find_entry. }
    rewrite H1, H2.
    repeat match goal with
           | |- context [has_key ?a ?b] => destruct (has_key a b)
           end; simpl; lia.
Qed.

Lemma restructured_passes_own_checks_witness :
  exists out r,
    Restructure.restructure_framework
      (JObj [("meta", JObj []); ("principles", JArr [JStr "clarity"])])
    = Ok out
    /\ validate_cognitive_load out = Ok r
    /\ cl_violations r = []
    /\ cl_compliant r = true
    /\ pd_compliant (validate_progressive_disclosure out) = true
    /\ se_compliant (validate_self_enforcement out) = true.
Proof.
  apply (restructured_passes_own_checks
           [("meta", JObj []); ("principles", JArr [JStr "clarity"])]).
  eexists. vm_compute. reflexivity.
Defined.

End ConventionsMore.
